(** * In-home nursing backend: token guard and service-request lifecycle

    A shallow embedding of the Express/Mongoose backend: the JWT helper and
    guard of [middleware/auth.js], the service-request router, the message
    router, the invoice route and the two login routes, followed by the
    properties established about them.

    Conventions of the embedding.
    - A Mongoose collection is a finite map from [_id] to document
      ([gmap string _]); the user and nurse collections, which the login
      routes search by fields other than [_id], are lists in natural order.
    - A handler is a function from the request data it reads and the
      collections it touches to the new collection and the response.
    - A response keeps the HTTP status and the data part of the JSON body;
      the human-readable [message] texts are left out.
    - Clock readings ([Date.now()/1000], the [iat]/[exp] claims) are
      integers, in seconds.
    - A document holds the paths its schema declares: a property the
      schema does not declare is neither stored nor sent back, and a value
      the schema cannot cast makes [save()] fail.
    - The record store itself does not fail: the [catch] arms of the
      handlers are modelled where the handler's own code can raise, which
      includes naming a model the file does not import. *)

From Stdlib Require Import ZArith String Ascii List Lia.
From stdpp Require Import base option strings pretty list gmap sorting.

Local Open Scope Z_scope.
Local Open Scope string_scope.

(** ** JavaScript helpers *)

(** [s.split(sep)] for a one-character separator: the pieces between the
    separators, empty pieces included; never the empty array. *)
Fixpoint split (sep : ascii) (s : string) : list string :=
  match s with
  | EmptyString => [EmptyString]
  | String c s' =>
      if Ascii.eqb c sep then EmptyString :: split sep s'
      else match split sep s' with
           | w :: ws => String c w :: ws
           | [] => [String c EmptyString]
           end
  end.

(** JavaScript truthiness of a possibly undefined string. *)
Definition truthy (o : option string) : bool :=
  match o with
  | None => false
  | Some s => negb (String.eqb s "")
  end.

(** The values the code passes around as [userId]: a missing property, an
    identifier, or a flat object such as [{ userId, role }]. *)
Inductive jsval : Type :=
| JUndefined
| JStr (s : string)
| JObj (fields : list (string * string)).

(** ** jsonwebtoken, as far as [middleware/auth.js] uses it *)

(** The claims of a token: the application's [userId] and the registered
    [iat] and [exp] claims. *)
Record jwt_payload : Type := mkPayload {
  userId : jsval;
  iat : Z;
  exp : option Z
}.

(** A parsed token: its claims and the signature segment. *)
Record jwt : Type := mkJwt {
  payload : jwt_payload;
  signature : string
}.

(** The two ways [jwt.verify] fails. *)
Inductive jwt_error : Type :=
| JsonWebTokenError
| TokenExpiredError.

(** What the guard does with a request: end it with a bare status
    ([res.sendStatus]) or hand it on with [req.userId] set ([next()]). *)
Inductive guard_outcome : Type :=
| SendStatus (code : Z)
| Next (req_userId : jsval).

Section TokenService.

(** The keyed digest (HS256) over the signing input, by secret. *)
Variable hmac : string -> jwt_payload -> string.

(** The parser of the compact serialisation: [None] on a malformed token. *)
Variable decode : string -> option jwt.

(** [jwt.sign({ userId: claims }, secret, { expiresIn })] at clock reading
    [now], in parsed form: the token text is whatever [decode] reads back
    to it. *)
Definition jwt_sign (claims : jsval) (secret : string) (expiresIn : Z) (now : Z) : jwt :=
  let p := {| userId := claims; iat := now; exp := Some (now + expiresIn) |} in
  {| payload := p; signature := hmac secret p |}.

(** [jwt.verify] on a parsed token: the signature first, then the expiry
    (a token is expired from [exp] on). *)
Definition jwt_verify (t : jwt) (secret : string) (now : Z) : jwt_error + jwt_payload :=
  if bool_decide (signature t = hmac secret (payload t)) then
    match exp (payload t) with
    | Some e => if bool_decide (e <= now) then inl TokenExpiredError else inr (payload t)
    | None => inr (payload t)
    end
  else inl JsonWebTokenError.

(** [jwt.verify] on the token text. *)
Definition jwt_verify_text (token : string) (secret : string) (now : Z) : jwt_error + jwt_payload :=
  match decode token with
  | None => inl JsonWebTokenError
  | Some t => jwt_verify t secret now
  end.

(** ['1h'] as a time span, in seconds. *)
Definition one_hour : Z := 3600.

(** [generateToken(userId)]. *)
Definition generateToken (userId : jsval) (now : Z) : jwt :=
  jwt_sign userId "tu_secreto_jwt" one_hour now.

(** [req.headers['authorization'] && req.headers['authorization'].split(' ')[1]]:
    the second blank-separated piece of the header; [None] is undefined. *)
Definition header_token (authorization : option string) : option string :=
  authorization ≫= (fun h => split " "%char h !! 1%nat).

(** [authenticateToken(req, res, next)], on the [authorization] header. *)
Definition authenticateToken (authorization : option string) (now : Z) : guard_outcome :=
  let token := header_token authorization in
  if negb (truthy token) then SendStatus 401
  else
    match jwt_verify_text (default "" token) "tu_secreto_jwt" now with
    | inl err => SendStatus 403
    | inr user => Next (userId user)
    end.

End TokenService.

(** ** Documents *)

(** [models/Patient.js]: every field is required. *)
Module Patient.
Record t : Type := mk {
  name : string;
  fecha_nacimiento : string;
  genero : string;
  movilidad : string;
  descripcion : string;
  usuario_id : string
}.
End Patient.

(** [models/User.js]. *)
Module User.
Record t : Type := mk {
  _id : string;
  name : string;
  user_name : string;
  password : string;
  foto : option string;
  verificado : string
}.
End User.

(** [models/Nurse.js]. *)
Module Nurse.
Record t : Type := mk {
  _id : string;
  name : option string;
  fecha_nacimiento : option string;
  genero : option string;
  movilidad : option string;
  descripcion : option string;
  usuario_id : option string;
  especialidad : option string;
  ubicacion : option string;
  tarifa : option Z;
  disponibilidad : list string;
  certificados : list string;
  user_name : string;
  password : string
}.
End Nurse.

(** [models/ServiceRequest.js]: [estado] defaults to ['pendiente'] and
    [pago_realizado] to [false]; [fecha] is a Date, kept as its time
    value. *)
Module ServiceRequest.
Record t : Type := mk {
  user_id : string;
  nurse_id : option string;
  patient_id : option string;
  estado : string;
  detalles : option string;
  fecha : option Z;
  tarifa : option Z;
  pago_realizado : bool
}.

Definition set_estado (v : string) (r : t) : t :=
  mk (user_id r) (nurse_id r) (patient_id r) v (detalles r) (fecha r) (tarifa r)
     (pago_realizado r).

Definition set_pago_realizado (v : bool) (r : t) : t :=
  mk (user_id r) (nurse_id r) (patient_id r) (estado r) (detalles r) (fecha r) (tarifa r)
     v.
End ServiceRequest.

(** [models/Message.js]: [timestamp] defaults to the clock reading. *)
Module Message.
Record t : Type := mk {
  from : option string;
  to : option string;
  content : option string;
  timestamp : Z
}.

(** What a stored message holds under [service_request_id], which is no
    path of the schema: nothing. *)
Definition service_request_id (m : t) : option string := None.
End Message.

(** The transaction document, with the fields the invoice route reads. *)
Module Transaction.
Record t : Type := mk {
  nurse_id : string;
  user_id : option string;
  service_request_id : option string;
  monto : option Z;
  fecha_pago : option Z;
  estado : option string
}.
End Transaction.

(** A value submitted for a path that the schema casts to a Date or a
    Number: the value it is cast to, or a text the cast refuses. *)
Inductive cast (A : Type) : Type :=
| Cast (v : A)
| CastError (raw : string).
Arguments Cast {A} _.
Arguments CastError {A} _.

(** The value a path takes from what was submitted for it. *)
Definition cast_value {A : Type} (o : option (cast A)) : option A :=
  match o with
  | Some (Cast v) => Some v
  | _ => None
  end.

(** Whether validation accepts what was submitted for a path. *)
Definition castable {A : Type} (o : option (cast A)) : bool :=
  match o with
  | Some (CastError _) => false
  | _ => true
  end.

(** A value submitted for a path of a query filter: a string, or an
    object, which the query reads as operators. Of the operators,
    [{ $ne: v }] with [v] [null] or a string is modelled. *)
Inductive filter_value : Type :=
| FStr (s : string)
| FNe (v : option string).

(** Whether a stored string satisfies the condition a filter puts on its
    path; an undefined condition matches no stored string. *)
Definition satisfies (stored : string) (cond : option filter_value) : bool :=
  match cond with
  | None => false
  | Some (FStr s) => bool_decide (stored = s)
  | Some (FNe None) => true
  | Some (FNe (Some s)) => bool_decide (stored <> s)
  end.

(** [req.body], by the properties the handlers destructure. A property
    has the JSON type the route documents for it (a string, a list of
    strings), with these exceptions: [fecha] and [tarifa] come as what the
    schema makes of them, and the two credentials come as strings or as
    query objects. *)
Module Body.
Record t : Type := mk {
  nurse_id : option string;
  patient_ids : option (list string);
  detalles : option string;
  fecha : option (cast Z);
  tarifa : option (cast Z);
  estado : option string;
  documentacion_servicio : option string;
  observaciones : option string;
  recomendaciones : option string;
  service_request_id : option string;
  receiver_id : option string;
  content : option string;
  user_name : option filter_value;
  password : option filter_value
}.

Definition empty : t :=
  mk None None None None None None None None None None None None None None.

(** [{ nurse_id, patient_ids, tarifa }]. *)
Definition creation (nurse : string) (patients : list string) (rate : Z) : t :=
  mk (Some nurse) (Some patients) None None (Some (Cast rate))
     None None None None None None None None None.

(** [{ estado }]. *)
Definition of_estado (e : string) : t :=
  mk None None None None None (Some e) None None None None None None None None.

(** [{ documentacion_servicio }]. *)
Definition of_documentacion (d : string) : t :=
  mk None None None None None None (Some d) None None None None None None None.

(** [{ service_request_id, content }]. *)
Definition of_message (sid text : string) : t :=
  mk None None None None None None None None None (Some sid) None (Some text) None None.

(** [{ user_name, password }]. *)
Definition of_login (u p : filter_value) : t :=
  mk None None None None None None None None None None None None (Some u) (Some p).

(** [{ user_name, password }], two strings. *)
Definition credentials (u p : string) : t := of_login (FStr u) (FStr p).
End Body.

(** ** Responses *)

(** The data part of a JSON body. In [PaymentState], [liberado] is the
    [pago_liberado] key, which JSON leaves out when its value is
    undefined ([None]). *)
Inductive content : Type :=
| Envelope
| RequestDoc (id : string) (r : ServiceRequest.t)
| RequestList (l : list (string * ServiceRequest.t))
| PaymentState (realizado : bool) (liberado : option bool) (state : string)
| Report (obs recs : option string)
| MessageData (m : Message.t)
| MessageList (l : list Message.t)
| Factura (tr : Transaction.t) (fecha_factura : Z)
| TokenRole (token : jwt) (role : string).

Record response : Type := mkResponse {
  status : Z;
  data : content
}.

(** ** Mongoose queries over the service-request collection *)

(** [findOne({ _id: id, ...cond })]. *)
Definition findOne (id : string) (cond : ServiceRequest.t -> bool)
    (c : gmap string ServiceRequest.t) : option ServiceRequest.t :=
  match c !! id with
  | Some r => if cond r then Some r else None
  | None => None
  end.

(** [findOneAndUpdate({ _id: id, ...cond }, update, { new: true })]: one
    atomic step of the store; the updated document, or [null]. *)
Definition findOneAndUpdate (id : string) (cond : ServiceRequest.t -> bool)
    (update : ServiceRequest.t -> ServiceRequest.t)
    (c : gmap string ServiceRequest.t)
  : gmap string ServiceRequest.t * option ServiceRequest.t :=
  match c !! id with
  | Some r => if cond r then (<[id := update r]> c, Some (update r)) else (c, None)
  | None => (c, None)
  end.

(** [doc.save()] of a loaded document: one update that sets the modified
    paths of the stored document with that [_id]. *)
Definition save (id : string) (modified : ServiceRequest.t -> ServiceRequest.t)
    (c : gmap string ServiceRequest.t) : gmap string ServiceRequest.t :=
  alter modified id c.

(** [.populate('patient_ids', 'name fecha_nacimiento genero descripcion')]
    on the documents a query found: [patient_ids] is no path of the
    schema, which populate refuses ([None]: it raises) as soon as there is
    a document to populate. *)
Definition populate_patient_ids {A : Type} (docs : list A) : option (list A) :=
  match docs with
  | [] => Some []
  | _ :: _ => None
  end.

(** ** The service-request router

    The handlers are named by their route and listed in the order in which
    the file registers them. Each one runs behind [authenticateToken]; its
    argument [uid] is [req.userId] as the guard left it, taken to be an
    identifier (the handlers are not modelled for the object that a login
    token leaves there). Path parameters and stored [_id]s are taken to be
    well-formed identifiers. The router file imports [ServiceRequest] and
    the guard only: where a handler names [Patient], [User] or [Nurse],
    the reference raises and the handler's [catch] answers. *)

(** [new ServiceRequest({ user_id: req.userId, nurse_id, patient_ids,
    detalles, fecha, tarifa })]: [patient_ids] is no path of the schema and
    is dropped, [patient_id] stays undefined, the other paths take their
    defaults. *)
Definition newRequest (uid : string) (b : Body.t) : ServiceRequest.t :=
  {| ServiceRequest.user_id := uid;
     ServiceRequest.nurse_id := Body.nurse_id b;
     ServiceRequest.patient_id := None;
     ServiceRequest.estado := "pendiente";
     ServiceRequest.detalles := Body.detalles b;
     ServiceRequest.fecha := cast_value (Body.fecha b);
     ServiceRequest.tarifa := cast_value (Body.tarifa b);
     ServiceRequest.pago_realizado := false |}.

(** [newRequest.save()] under the [_id] [oid] generated for the document:
    the store refuses a duplicate key, which the handlers catch (400). *)
Definition insert_request (oid : string) (r : ServiceRequest.t)
    (c : gmap string ServiceRequest.t) : gmap string ServiceRequest.t * response :=
  match c !! oid with
  | Some _ => (c, mkResponse 400 Envelope)
  | None => (<[oid := r]> c, mkResponse 201 (RequestDoc oid r))
  end.

(** First [router.post('/')]: create, with no look at the patients. A
    [fecha] or [tarifa] that cannot be cast fails validation in [save()],
    which is caught (400). *)
Definition post_root (oid uid : string) (b : Body.t)
    (c : gmap string ServiceRequest.t) : gmap string ServiceRequest.t * response :=
  if castable (Body.fecha b) && castable (Body.tarifa b)
  then insert_request oid (newRequest uid b) c
  else (c, mkResponse 400 Envelope).

(** [ServiceRequest.find({ nurse_id: req.userId, ...cond })]. *)
Definition requests_of_nurse (uid : string) (cond : ServiceRequest.t -> bool)
    (c : gmap string ServiceRequest.t) : list (string * ServiceRequest.t) :=
  filter (fun kr : string * ServiceRequest.t =>
            ServiceRequest.nurse_id kr.2 = Some uid /\ cond kr.2 = true)
         (map_to_list c).

(** First [router.get('/')]: the requests assigned to the nurse, populated;
    a raising populate is caught (500). *)
Definition get_root (uid : string) (c : gmap string ServiceRequest.t) : response :=
  match populate_patient_ids (requests_of_nurse uid (fun _ => true) c) with
  | Some requests => mkResponse 200 (RequestList requests)
  | None => mkResponse 500 Envelope
  end.

(** Second [router.post('/')]: its first statement is
    [Patient.find(...)], inside the [try]; [Patient] is not bound, so every
    request ends in the [catch] (400) with nothing stored. *)
Definition post_root_checked (oid uid : string) (b : Body.t)
    (c : gmap string ServiceRequest.t) : gmap string ServiceRequest.t * response :=
  (c, mkResponse 400 Envelope).

(** Second [router.get('/')]: the pending requests of the nurse. *)
Definition get_root_pendientes (uid : string) (c : gmap string ServiceRequest.t) : response :=
  match populate_patient_ids
          (requests_of_nurse uid
             (fun r => bool_decide (ServiceRequest.estado r = "pendiente")) c) with
  | Some requests => mkResponse 200 (RequestList requests)
  | None => mkResponse 500 Envelope
  end.

(** [['aceptada', 'rechazada'].includes(estado)]. *)
Definition valid_estado (estado : option string) : bool :=
  match estado with
  | Some e => bool_decide (e ∈ ["aceptada"; "rechazada"])
  | None => false
  end.

(** First [router.put('/:id')]: accept or reject. *)
Definition put_id (id uid : string) (b : Body.t)
    (c : gmap string ServiceRequest.t) : gmap string ServiceRequest.t * response :=
  if negb (valid_estado (Body.estado b)) then (c, mkResponse 400 Envelope)
  else
    match findOneAndUpdate id
            (fun r => bool_decide (ServiceRequest.nurse_id r = Some uid))
            (ServiceRequest.set_estado (default "" (Body.estado b))) c with
    | (c', None) => (c', mkResponse 404 Envelope)
    | (c', Some request) => (c', mkResponse 200 (RequestDoc id request))
    end.

(** [router.put('/:id/pagar')]: the client marks the service as paid. *)
Definition put_id_pagar (id uid : string)
    (c : gmap string ServiceRequest.t) : gmap string ServiceRequest.t * response :=
  match findOne id
          (fun r => bool_decide (ServiceRequest.user_id r = uid)
                    && bool_decide (ServiceRequest.pago_realizado r = false)) c with
  | None => (c, mkResponse 403 Envelope)
  | Some serviceRequest =>
      let modified := ServiceRequest.set_pago_realizado true in
      (save id modified c, mkResponse 200 (RequestDoc id (modified serviceRequest)))
  end.

(** [router.get('/:id/estado-pago')]: the nurse reads the payment state.
    The document has no [pago_liberado]: the property reads undefined. *)
Definition get_id_estado_pago (id uid : string)
    (c : gmap string ServiceRequest.t) : response :=
  match findOne id (fun r => bool_decide (ServiceRequest.nurse_id r = Some uid)) c with
  | None => mkResponse 403 Envelope
  | Some serviceRequest =>
      mkResponse 200 (PaymentState (ServiceRequest.pago_realizado serviceRequest)
                                   None
                                   (ServiceRequest.estado serviceRequest))
  end.

(** [router.put('/:id/completar')]: the nurse completes the service. Of
    the three assignments, [estado] is a path of the schema;
    [documentacion_servicio] and [pago_liberado] are not, so [save()]
    stores, and the answer shows, the new [estado] only. *)
Definition put_id_completar (id uid : string) (b : Body.t)
    (c : gmap string ServiceRequest.t) : gmap string ServiceRequest.t * response :=
  match findOne id
          (fun r => bool_decide (ServiceRequest.nurse_id r = Some uid)
                    && bool_decide (ServiceRequest.estado r = "pendiente")) c with
  | None => (c, mkResponse 403 Envelope)
  | Some serviceRequest =>
      let modified := ServiceRequest.set_estado "completado" in
      (save id modified c, mkResponse 200 (RequestDoc id (modified serviceRequest)))
  end.

(** [router.put('/:id/reporte')]: the nurse files the report.
    [observaciones] and [recomendaciones] are no paths of the schema: the
    assignments leave them on the loaded object, [save()] has nothing to
    store, and the answer reads them back from the object. *)
Definition put_id_reporte (id uid : string) (b : Body.t)
    (c : gmap string ServiceRequest.t) : gmap string ServiceRequest.t * response :=
  match findOne id
          (fun r => bool_decide (ServiceRequest.nurse_id r = Some uid)
                    && bool_decide (ServiceRequest.estado r = "completado")) c with
  | None => (c, mkResponse 403 Envelope)
  | Some serviceRequest =>
      (c, mkResponse 200 (Report (Body.observaciones b) (Body.recomendaciones b)))
  end.

(** Second [router.put('/:id')]: accept or reject, then, on ['aceptada'],
    [User.findById(...)]; [User] is not bound, so the handler ends in its
    [catch] (400) after the update. *)
Definition put_id_notify (id uid : string) (b : Body.t)
    (c : gmap string ServiceRequest.t) : gmap string ServiceRequest.t * response :=
  if negb (valid_estado (Body.estado b)) then (c, mkResponse 400 Envelope)
  else
    match findOneAndUpdate id
            (fun r => bool_decide (ServiceRequest.nurse_id r = Some uid))
            (ServiceRequest.set_estado (default "" (Body.estado b))) c with
    | (c', None) => (c', mkResponse 404 Envelope)
    | (c', Some serviceRequest) =>
        if bool_decide (Body.estado b = Some "aceptada")
        then (c', mkResponse 400 Envelope)
        else (c', mkResponse 200 (RequestDoc id serviceRequest))
    end.

(** [router.get('/:id')]: the client reads an accepted request. When the
    query finds one, populate raises; past it, [Nurse.findById(...)] names
    a model that is not bound. Either way the [catch] answers (500). *)
Definition get_id (id uid : string) (c : gmap string ServiceRequest.t) : response :=
  match findOne id
          (fun r => bool_decide (ServiceRequest.user_id r = uid)
                    && bool_decide (ServiceRequest.estado r = "aceptada")) c with
  | None => mkResponse 404 Envelope
  | Some serviceRequest =>
      match populate_patient_ids [serviceRequest] with
      | None => mkResponse 500 Envelope
      | Some _ => mkResponse 500 Envelope
      end
  end.

(** ** Express dispatch *)

Inductive method : Type := GET | POST | PUT.

Global Instance method_eq_dec : EqDecision method.
Proof. solve_decision. Defined.

(** A segment of a route path: a literal, or a parameter such as [:id]. *)
Inductive segment : Type :=
| Lit (s : string)
| Param.

(** An ASCII letter in lower case; any other character as it is. *)
Definition lower_ascii (c : ascii) : ascii :=
  let n := nat_of_ascii c in
  if ((65 <=? n) && (n <=? 90))%nat then ascii_of_nat (n + 32) else c.

Fixpoint lower (s : string) : string :=
  match s with
  | EmptyString => EmptyString
  | String c s' => String (lower_ascii c) (lower s')
  end.

(** A route path against a request path, as [express.Router()] compares
    them by default. The request path is given by its pieces after the
    leading slash: [/r1/pagar] is [["r1"; "pagar"]], [/r1/] is
    [["r1"; ""]], the mount point is [[]] and, with its slash, [[""]]. A
    literal is compared without regard to the case of letters, a parameter
    takes one non-empty piece, and one trailing slash is allowed. The
    result is the captured parameters, in order. *)
Fixpoint match_path (pattern : list segment) (path : list string) : option (list string) :=
  match pattern, path with
  | [], [] => Some []
  | [], [x] => if bool_decide (x = "") then Some [] else None
  | Lit s :: pattern', x :: path' =>
      if bool_decide (lower s = lower x) then match_path pattern' path' else None
  | Param :: pattern', x :: path' =>
      if bool_decide (x = "") then None else cons x <$> match_path pattern' path'
  | _, _ => None
  end.

(** The collections behind the routers. *)
Record Db : Type := mkDb {
  serviceRequests : gmap string ServiceRequest.t;
  patients : gmap string Patient.t;
  nurses : list Nurse.t;
  users : list User.t;
  transactions : gmap string Transaction.t;
  messages : list Message.t
}.

Definition set_serviceRequests (db : Db) (c : gmap string ServiceRequest.t) : Db :=
  mkDb c (patients db) (nurses db) (users db) (transactions db) (messages db).

Definition set_messages (db : Db) (l : list Message.t) : Db :=
  mkDb (serviceRequests db) (patients db) (nurses db) (users db) (transactions db) l.

(** A request that has passed the guard: [req.userId] is set. [req_oid] is
    the [_id] the driver generates should the handler create a document,
    [req_now] the clock reading. *)
Record request : Type := mkRequest {
  req_method : method;
  req_path : list string;
  req_userId : string;
  req_body : Body.t;
  req_oid : string;
  req_now : Z
}.

(** A handler answers, or calls [next()] ([None]). *)
Definition handler : Type := list string -> request -> Db -> option (Db * response).

Record route : Type := mkRoute {
  route_method : method;
  route_path : list segment;
  route_handler : handler
}.

(** [req.params.id]. *)
Definition param_id (params : list string) : string := default "" (head params).

(** A handler that writes the service requests and always answers. *)
Definition writes (h : list string -> request -> Db -> gmap string ServiceRequest.t * response)
  : handler :=
  fun params req db => Some (set_serviceRequests db (h params req db).1, (h params req db).2).

(** A handler that only reads and always answers. *)
Definition reads (h : list string -> request -> Db -> response) : handler :=
  fun params req db => Some (db, h params req db).

(** The stack of the service-request router, in registration order. *)
Definition serviceRequests_router : list route :=
  [ mkRoute POST [] (writes (fun _ req db =>
      post_root (req_oid req) (req_userId req) (req_body req) (serviceRequests db)));
    mkRoute GET [] (reads (fun _ req db =>
      get_root (req_userId req) (serviceRequests db)));
    mkRoute POST [] (writes (fun _ req db =>
      post_root_checked (req_oid req) (req_userId req) (req_body req)
                        (serviceRequests db)));
    mkRoute GET [] (reads (fun _ req db =>
      get_root_pendientes (req_userId req) (serviceRequests db)));
    mkRoute PUT [Param] (writes (fun params req db =>
      put_id (param_id params) (req_userId req) (req_body req) (serviceRequests db)));
    mkRoute PUT [Param; Lit "pagar"] (writes (fun params req db =>
      put_id_pagar (param_id params) (req_userId req) (serviceRequests db)));
    mkRoute GET [Param; Lit "estado-pago"] (reads (fun params req db =>
      get_id_estado_pago (param_id params) (req_userId req) (serviceRequests db)));
    mkRoute PUT [Param; Lit "completar"] (writes (fun params req db =>
      put_id_completar (param_id params) (req_userId req) (req_body req) (serviceRequests db)));
    mkRoute PUT [Param; Lit "reporte"] (writes (fun params req db =>
      put_id_reporte (param_id params) (req_userId req) (req_body req) (serviceRequests db)));
    mkRoute PUT [Param] (writes (fun params req db =>
      put_id_notify (param_id params) (req_userId req) (req_body req)
                    (serviceRequests db)));
    mkRoute GET [Param] (reads (fun params req db =>
      get_id (param_id params) (req_userId req) (serviceRequests db))) ].

(** The router walks its stack: the first layer whose method and path
    match handles the request; a later one is reached only through
    [next()]. [None]: the request leaves the router unanswered. *)
Fixpoint dispatch (stack : list route) (req : request) (db : Db) : option (Db * response) :=
  match stack with
  | [] => None
  | layer :: rest =>
      if bool_decide (route_method layer = req_method req) then
        match match_path (route_path layer) (req_path req) with
        | Some params =>
            match route_handler layer params req db with
            | Some answer => Some answer
            | None => dispatch rest req db
            end
        | None => dispatch rest req db
        end
      else dispatch rest req db
  end.

(** A run of requests through the service-request router, one after the
    other; an unanswered request leaves the collections as they are. *)
Definition serve (req : request) (db : Db) : Db :=
  match dispatch serviceRequests_router req db with
  | Some (db', _) => db'
  | None => db
  end.

Definition serve_all (reqs : list request) (db : Db) : Db :=
  foldl (fun d req => serve req d) db reqs.

(** ** The message router and the invoice route *)

(** [$or: [{ user_id: req.userId }, { nurse_id: req.userId }]]. *)
Definition involved (uid : string) (r : ServiceRequest.t) : bool :=
  bool_decide (ServiceRequest.user_id r = uid)
  || bool_decide (ServiceRequest.nurse_id r = Some uid).

(** [findOne] with an [_id] that may be undefined, which matches nothing. *)
Definition findOne_opt (id : option string) (cond : ServiceRequest.t -> bool)
    (c : gmap string ServiceRequest.t) : option ServiceRequest.t :=
  id ≫= (fun i => findOne i cond c).

(** [router.post('/')] of the messages: send within a service request.
    Of [service_request_id], [sender_id], [receiver_id] and [content],
    handed to [new Message], the schema declares [content]; the others are
    dropped, [from] and [to] stay undefined. *)
Definition post_message (uid : string) (b : Body.t) (now : Z)
    (c : gmap string ServiceRequest.t) (ms : list Message.t) : list Message.t * response :=
  match findOne_opt (Body.service_request_id b) (involved uid) c with
  | None => (ms, mkResponse 403 Envelope)
  | Some serviceRequest =>
      let message := Message.mk None None (Body.content b) now in
      ((ms ++ [message])%list, mkResponse 201 (MessageData message))
  end.

(** [.sort({ timestamp: 1 })]: ascending by timestamp. *)
Definition by_timestamp (a b : Message.t) : Prop :=
  Message.timestamp a <= Message.timestamp b.

Global Instance by_timestamp_dec : RelDecision by_timestamp.
Proof. intros a b. unfold by_timestamp. apply _. Defined.

(** [router.get('/:service_request_id')]:
    [Message.find({ service_request_id }).sort({ timestamp: 1 })], the
    stored messages that hold the identifier, oldest first. *)
Definition get_messages (sid uid : string)
    (c : gmap string ServiceRequest.t) (ms : list Message.t) : response :=
  match findOne sid (involved uid) c with
  | None => mkResponse 403 Envelope
  | Some serviceRequest =>
      mkResponse 200
        (MessageList
           (merge_sort by_timestamp
              (filter (fun m => Message.service_request_id m = Some sid) ms)))
  end.

(** [router.post('/:id/factura')]: the invoice of a nurse's transaction. *)
Definition post_id_factura (id uid : string) (now : Z)
    (ts : gmap string Transaction.t) : response :=
  match ts !! id with
  | Some transaction =>
      if bool_decide (Transaction.nurse_id transaction = uid)
      then mkResponse 200 (Factura transaction now)
      else mkResponse 404 Envelope
  | None => mkResponse 404 Envelope
  end.

(** ** The login routes *)

(** The object the login routes hand to [generateToken]. *)
Definition identity (id role : string) : jsval :=
  JObj [("userId", id); ("role", role)].

Section Login.

Variable hmac : string -> jwt_payload -> string.

(** [User.findOne({ user_name, password })], with the two properties as
    the body gives them: an undefined one matches no stored user, both
    paths being required. *)
Definition User_findOne (b : Body.t) (us : list User.t) : option User.t :=
  find (fun u => satisfies (User.user_name u) (Body.user_name b)
                 && satisfies (User.password u) (Body.password b)) us.

(** [router.post('/login')] of the users. *)
Definition users_login (b : Body.t) (now : Z) (us : list User.t) : response :=
  match User_findOne b us with
  | None => mkResponse 401 Envelope
  | Some user =>
      mkResponse 200 (TokenRole (generateToken hmac (identity (User._id user) "usuario") now)
                                "usuario")
  end.

(** [Nurse.findOne({ user_name, password })]. *)
Definition Nurse_findOne (b : Body.t) (ns : list Nurse.t) : option Nurse.t :=
  find (fun n => satisfies (Nurse.user_name n) (Body.user_name b)
                 && satisfies (Nurse.password n) (Body.password b)) ns.

(** [router.post('/login')] of the nurses. *)
Definition nurses_login (b : Body.t) (now : Z) (ns : list Nurse.t) : response :=
  match Nurse_findOne b ns with
  | None => mkResponse 401 Envelope
  | Some nurse =>
      mkResponse 200 (TokenRole (generateToken hmac (identity (Nurse._id nurse) "enfermero") now)
                                "enfermero")
  end.

End Login.

(** ** Startup

    Node evaluates a module body once, in a process whose environment is
    [process.env]; a body that throws ends the process ([None]). *)

(** [app.js]: [process.env.PORT || 3000], the one read of the environment. *)
Definition PORT (env : gmap string string) : string :=
  match env !! "PORT" with
  | Some p => if String.eqb p "" then "3000" else p
  | None => "3000"
  end.

(** [module.exports = { generateToken, authenticateToken }]. *)
Record auth_exports : Type := mkAuth {
  exports_generateToken : jsval -> Z -> jwt;
  exports_authenticateToken : option string -> Z -> guard_outcome
}.

(** The body of [middleware/auth.js] under [env]: the two function
    declarations and the export. No statement of it reads [env] or throws. *)
Definition require_auth (hmac : string -> jwt_payload -> string)
    (decode : string -> option jwt) (env : gmap string string) : option auth_exports :=
  Some (mkAuth (generateToken hmac) (authenticateToken hmac decode)).

(** ** Stand-ins for worked examples

    The properties below hold for every digest and every parser; the
    worked examples run with these two. *)

Definition render (v : jsval) : string :=
  match v with
  | JUndefined => ""
  | JStr s => s
  | JObj fields => String.concat "," (map (fun kv => kv.1 +:+ "=" +:+ kv.2) fields)
  end.

(** A digest that depends on the secret and on every claim. *)
Definition example_hmac (secret : string) (p : jwt_payload) : string :=
  secret +:+ "/" +:+ render (userId p) +:+ "/" +:+ pretty (iat p) +:+ "/"
  +:+ from_option pretty "" (exp p).

(** A parser that knows the listed token texts. *)
Definition example_decode (known : list (string * jwt)) (text : string) : option jwt :=
  snd <$> find (fun kt => String.eqb kt.1 text) known.

(** [true] when [c] occurs in [s]. *)
Fixpoint occurs (c : ascii) (s : string) : bool :=
  match s with
  | EmptyString => false
  | String c' s' => Ascii.eqb c' c || occurs c s'
  end.

(** ** Vocabulary of the properties *)

(** The two parties of a request: the client who created it and the nurse
    it names. *)
Definition parties (r : ServiceRequest.t) : string * option string :=
  (ServiceRequest.user_id r, ServiceRequest.nurse_id r).

(** Every request of [c] is still in [c'], with the same parties. *)
Definition same_parties (c c' : gmap string ServiceRequest.t) : Prop :=
  forall id r, c !! id = Some r -> exists r', c' !! id = Some r' /\ parties r' = parties r.

(** A handler whose answers leave the parties of every request alone. *)
Definition keeps_parties (h : handler) : Prop :=
  forall params req db db' answer,
    h params req db = Some (db', answer) ->
    same_parties (serviceRequests db) (serviceRequests db').

(** ** Registration and the patient router *)

(** An answer of the routes below: the status, and the data sent on
    success. *)
Record reply (A : Type) : Type := mkReply {
  code : Z;
  sent : option A
}.
Arguments mkReply {A} _ _.
Arguments code {A} _.
Arguments sent {A} _.

(** [req.body] of [POST /users/register]. *)
Module RegisterBody.
Record t : Type := mk {
  name : option string;
  user_name : option string;
  password : option string;
  foto : option string;
  verificado : option string
}.
End RegisterBody.

(** [router.post('/register')] of the users: [new User(req.body)],
    [save()], then a token for the new [_id]. The schema requires [name],
    [user_name] and [password] (a required string is a non-empty one),
    declares [user_name] unique and defaults [verificado] to ['No']; a
    refused save is caught (400). [oid] is the generated [_id]. *)
Definition users_register (hmac : string -> jwt_payload -> string)
    (oid : string) (b : RegisterBody.t) (now : Z) (us : list User.t)
  : list User.t * reply (User.t * jwt) :=
  if truthy (RegisterBody.name b) && truthy (RegisterBody.user_name b)
     && truthy (RegisterBody.password b)
  then
    if existsb (fun u => bool_decide (Some (User.user_name u) = RegisterBody.user_name b)
                         || bool_decide (User._id u = oid)) us
    then (us, mkReply 400 None)
    else
      let newUser :=
        User.mk oid (default "" (RegisterBody.name b))
                (default "" (RegisterBody.user_name b))
                (default "" (RegisterBody.password b))
                (RegisterBody.foto b)
                (default "No" (RegisterBody.verificado b)) in
      ((us ++ [newUser])%list,
       mkReply 201 (Some (newUser, generateToken hmac (JStr oid) now)))
  else (us, mkReply 400 None).

(** [req.body] of [POST /nurses/register], by the properties the handler
    destructures. *)
Module NurseBody.
Record t : Type := mk {
  name : option string;
  user_name : option string;
  password : option string;
  genero : option string;
  fecha_nacimiento : option string;
  tarifa : option Z;
  certificados : list string;
  especialidad : option string;
  ubicacion : option string;
  disponibilidad : list string
}.
End NurseBody.

(** [router.post('/register')] of the nurses. The schema requires
    [user_name] and [password] and declares [user_name] unique. The answer
    carries the token behind the word [Bearer]. *)
Definition nurses_register (hmac : string -> jwt_payload -> string)
    (oid : string) (b : NurseBody.t) (now : Z) (ns : list Nurse.t)
  : list Nurse.t * reply (Nurse.t * jwt) :=
  if truthy (NurseBody.user_name b) && truthy (NurseBody.password b)
  then
    if existsb (fun n => bool_decide (Some (Nurse.user_name n) = NurseBody.user_name b)
                         || bool_decide (Nurse._id n = oid)) ns
    then (ns, mkReply 400 None)
    else
      let newNurse :=
        Nurse.mk oid (NurseBody.name b) (NurseBody.fecha_nacimiento b)
                 (NurseBody.genero b) None None None
                 (NurseBody.especialidad b) (NurseBody.ubicacion b)
                 (NurseBody.tarifa b) (NurseBody.disponibilidad b)
                 (NurseBody.certificados b)
                 (default "" (NurseBody.user_name b))
                 (default "" (NurseBody.password b)) in
      ((ns ++ [newNurse])%list,
       mkReply 201 (Some (newNurse, generateToken hmac (JStr oid) now)))
  else (ns, mkReply 400 None).

(** [req.body] of [POST /patients]. *)
Module PatientBody.
Record t : Type := mk {
  name : option string;
  fecha_nacimiento : option string;
  genero : option string;
  movilidad : option string;
  descripcion : option string;
  usuario_id : option string
}.
End PatientBody.

(** [router.post('/')] of the patients:
    [new Patient({ ...req.body, usuario_id: req.userId })]; every path of
    the schema is required. *)
Definition patients_post (oid uid : string) (b : PatientBody.t)
    (ps : gmap string Patient.t) : gmap string Patient.t * reply (string * Patient.t) :=
  if truthy (PatientBody.name b) && truthy (PatientBody.fecha_nacimiento b)
     && truthy (PatientBody.genero b) && truthy (PatientBody.movilidad b)
     && truthy (PatientBody.descripcion b) && truthy (Some uid)
  then
    match ps !! oid with
    | Some _ => (ps, mkReply 400 None)
    | None =>
        let newPatient :=
          Patient.mk (default "" (PatientBody.name b))
                     (default "" (PatientBody.fecha_nacimiento b))
                     (default "" (PatientBody.genero b))
                     (default "" (PatientBody.movilidad b))
                     (default "" (PatientBody.descripcion b))
                     uid in
        (<[oid := newPatient]> ps, mkReply 201 (Some (oid, newPatient)))
    end
  else (ps, mkReply 400 None).

(** [router.get('/')] of the patients: the caller's patients, each without
    its [_id]. *)
Definition patients_get (uid : string) (ps : gmap string Patient.t) : reply (list Patient.t) :=
  mkReply 200
    (Some (snd <$> filter (fun kp : string * Patient.t => Patient.usuario_id kp.2 = uid)
                          (map_to_list ps))).

(** ** The lifecycle as the router implements it *)

(** The three changes the router makes to a stored request. *)
Inductive transition (r : ServiceRequest.t) : ServiceRequest.t -> Prop :=
| accept_or_reject (e : string) :
    e ∈ ["aceptada"; "rechazada"] ->
    transition r (ServiceRequest.set_estado e r)
| pay :
    ServiceRequest.pago_realizado r = false ->
    transition r (ServiceRequest.set_pago_realizado true r)
| complete :
    ServiceRequest.estado r = "pendiente" ->
    transition r (ServiceRequest.set_estado "completado" r).

(** What one request does to the collection: a stored request stays, as
    it was or after one transition; a new one is the request just created. *)
Definition router_step (req : request) (c c' : gmap string ServiceRequest.t) : Prop :=
  forall id,
    match c !! id, c' !! id with
    | Some r, Some r' => r' = r \/ transition r r'
    | Some _, None => False
    | None, Some r' =>
        id = req_oid req /\ r' = newRequest (req_userId req) (req_body req)
        /\ castable (Body.fecha (req_body req)) = true
        /\ castable (Body.tarifa (req_body req)) = true
    | None, None => True
    end.

(** A handler whose answers are router steps. *)
Definition steps (h : handler) : Prop :=
  forall params req db db' answer,
    h params req db = Some (db', answer) ->
    router_step req (serviceRequests db) (serviceRequests db').

(** The states a request can be in. *)
Definition consistent (r : ServiceRequest.t) : Prop :=
  ServiceRequest.estado r ∈ ["pendiente"; "aceptada"; "rechazada"; "completado"].

(** The stack without its third, fourth and tenth layer: the second
    [POST /], the second [GET /] and the second [PUT /:id]. *)
Definition reached_layers : list route :=
  omap (fun i => serviceRequests_router !! i) [0; 1; 4; 5; 6; 7; 8; 10]%nat.

(** * Properties *)

(** ** Worked examples of the helpers *)

Example split_examples :
  split " "%char "Bearer abc" = ["Bearer"; "abc"]
  /\ split " "%char "" = [""]
  /\ split " "%char "Bearer" = ["Bearer"]
  /\ split " "%char "a  b" = ["a"; ""; "b"]
  /\ header_token (Some "Bearer") = None
  /\ header_token (Some "Bearer ") = Some ""
  /\ header_token (Some "Token abc def") = Some "abc"
  /\ header_token None = None.
Proof. repeat split; reflexivity. Qed.

Example match_path_examples :
  match_path [Param] ["r1"] = Some ["r1"]
  /\ match_path [Param] ["r1"; "pagar"] = None
  /\ match_path [Param; Lit "pagar"] ["r1"; "pagar"] = Some ["r1"]
  /\ match_path [Param; Lit "pagar"] ["r1"; "completar"] = None
  /\ match_path [] [] = Some []
  /\ match_path [] [""] = Some []
  /\ match_path [Param] [""] = None
  /\ match_path [Param] ["r1"; ""] = Some ["r1"]
  /\ match_path [Param; Lit "pagar"] ["r1"; "PAGAR"] = Some ["r1"]
  /\ match_path [Param; Lit "pagar"] ["r1"; "Pagar"; ""] = Some ["r1"]
  /\ match_path [Param; Lit "pagar"] ["r1"; ""; "pagar"] = None.
Proof. repeat split; reflexivity. Qed.

(** ** The token service and the guard *)

Lemma split_absent (sep : ascii) (s : string) :
  occurs sep s = false -> split sep s = [s].
Proof.
  induction s as [|c s IH]; simpl; [done|].
  intros H. apply orb_false_iff in H as [Hc Hs].
  rewrite Hc, (IH Hs). done.
Qed.

Lemma header_token_bearer (text : string) :
  occurs " "%char text = false ->
  header_token (Some ("Bearer " +:+ text)) = Some text.
Proof.
  intros H. unfold header_token. simpl.
  change ("" +:+ text) with text. rewrite (split_absent _ _ H). done.
Qed.

Lemma truthy_Some (token : string) : truthy (Some token) = true <-> token <> "".
Proof.
  simpl. rewrite negb_true_iff. split.
  - intros H ->. discriminate.
  - intros H. apply String.eqb_neq. done.
Qed.

Lemma jwt_verify_ok hmac (t : jwt) (secret : string) (now : Z) (p : jwt_payload) :
  jwt_verify hmac t secret now = inr p <->
  p = payload t /\ signature t = hmac secret (payload t)
  /\ (forall e, exp (payload t) = Some e -> now < e).
Proof.
  unfold jwt_verify. case_bool_decide as Hsig.
  - destruct (exp (payload t)) as [e|] eqn:He.
    + case_bool_decide as Hexp; split.
      * discriminate.
      * intros (_ & _ & Hlt). specialize (Hlt e eq_refl). lia.
      * intros [= <-]. split_and!; [done..|]. intros e' [= <-]. lia.
      * intros (-> & _). done.
    + split.
      * intros [= <-]. split_and!; [done..|]. intros e' [=].
      * intros (-> & _). done.
  - split; [discriminate|]. intros (_ & Hs & _). done.
Qed.

Lemma authenticateToken_with_token hmac decode authorization now token :
  header_token authorization = Some token -> token <> "" ->
  authenticateToken hmac decode authorization now =
    match jwt_verify_text hmac decode token "tu_secreto_jwt" now with
    | inl _ => SendStatus 403
    | inr user => Next (userId user)
    end.
Proof.
  intros Htok Hne. unfold authenticateToken. rewrite Htok.
  apply truthy_Some in Hne. rewrite Hne. done.
Qed.

(** C5, as the guard has it: the guard answers 401 exactly when the header
    yields no token (no header, or no non-empty second piece), and 403
    whenever a token is there and [jwt.verify] rejects it, be it malformed,
    wrongly signed or expired; it sends no other status. *)
Theorem authenticateToken_statuses hmac decode (authorization : option string) (now : Z) :
  (authenticateToken hmac decode authorization now = SendStatus 401
   <-> truthy (header_token authorization) = false)
  /\ (forall token err,
        header_token authorization = Some token -> token <> "" ->
        jwt_verify_text hmac decode token "tu_secreto_jwt" now = inl err ->
        authenticateToken hmac decode authorization now = SendStatus 403)
  /\ (forall token,
        header_token authorization = Some token -> token <> "" ->
        (decode token = None
         \/ (exists t, decode token = Some t
                       /\ (signature t <> hmac "tu_secreto_jwt" (payload t)
                           \/ exists e, exp (payload t) = Some e /\ e <= now))) ->
        authenticateToken hmac decode authorization now = SendStatus 403)
  /\ (forall code,
        authenticateToken hmac decode authorization now = SendStatus code ->
        code = 401 \/ code = 403).
Proof.
  assert (Hrej : forall token err,
             header_token authorization = Some token -> token <> "" ->
             jwt_verify_text hmac decode token "tu_secreto_jwt" now = inl err ->
             authenticateToken hmac decode authorization now = SendStatus 403).
  { intros token err Htok Hne Herr.
    rewrite (authenticateToken_with_token _ _ _ _ _ Htok Hne), Herr. done. }
  split_and!.
  - unfold authenticateToken.
    destruct (truthy (header_token authorization)) eqn:Ht; simpl.
    + split; [|discriminate].
      destruct (jwt_verify_text _ _ _ _ _); intros [=].
    + done.
  - exact Hrej.
  - intros token Htok Hne Hbad.
    destruct (jwt_verify_text hmac decode token "tu_secreto_jwt" now) as [err|p] eqn:Hv.
    { by eapply Hrej. }
    exfalso. unfold jwt_verify_text in Hv.
    destruct Hbad as [Hnone | (t & Ht & Hbad)].
    + rewrite Hnone in Hv. discriminate.
    + rewrite Ht in Hv. apply jwt_verify_ok in Hv as (_ & Hsig & Hexp).
      destruct Hbad as [Hbad | (e & He & Hle)]; [done|].
      specialize (Hexp e He). lia.
  - intros code. unfold authenticateToken.
    destruct (truthy (header_token authorization)); simpl.
    + destruct (jwt_verify_text _ _ _ _ _); intros [= <-]. by right.
    + intros [= <-]. by left.
Qed.

(** C5, refuted as stated: with a token in the header that is malformed,
    or wrongly signed, or expired, the guard answers 403 and not 401. *)
Lemma guard_rejects_tokens_with_403 :
  let good := generateToken example_hmac (JStr "u1") 0 in
  let forged := {| payload := payload good; signature := "forged" |} in
  let decode := example_decode [("good", good); ("forged", forged)] in
  authenticateToken example_hmac decode (Some "Bearer nonsense") 10 = SendStatus 403
  /\ authenticateToken example_hmac decode (Some "Bearer forged") 10 = SendStatus 403
  /\ authenticateToken example_hmac decode (Some "Bearer good") 3600 = SendStatus 403
  /\ authenticateToken example_hmac decode (Some "Bearer good") 10 = Next (JStr "u1")
  /\ SendStatus 403 <> SendStatus 401.
Proof.
  split_and!; try (vm_compute; reflexivity).
  intros [=].
Qed.

(** C6: a token issued for [(id, role)] expires one hour after issuance;
    before that, verification under the guard's secret returns its claims,
    whose [userId] is exactly the pair, and the guard attaches that pair to
    the request; from then on verification fails with [TokenExpiredError]. *)
Theorem verify_generateToken_roundtrip hmac (id role : string) (now now' : Z) :
  let token := generateToken hmac (identity id role) now in
  exp (payload token) = Some (now + 3600)
  /\ (now' < now + 3600 ->
      jwt_verify hmac token "tu_secreto_jwt" now' = inr (payload token)
      /\ userId (payload token) = identity id role
      /\ forall decode authorization text,
           header_token authorization = Some text -> text <> "" ->
           decode text = Some token ->
           authenticateToken hmac decode authorization now' = Next (identity id role))
  /\ (now + 3600 <= now' ->
      jwt_verify hmac token "tu_secreto_jwt" now' = inl TokenExpiredError).
Proof.
  intros token.
  assert (Hsig : signature token = hmac "tu_secreto_jwt" (payload token)) by done.
  split_and!.
  - done.
  - intros Hlt.
    assert (Hok : jwt_verify hmac token "tu_secreto_jwt" now' = inr (payload token)).
    { apply jwt_verify_ok. split_and!; [done..|].
      intros e [= <-]. unfold one_hour. lia. }
    split_and!; [done..|].
    intros decode authorization text Htok Hne Hdec.
    rewrite (authenticateToken_with_token _ _ _ _ _ Htok Hne).
    unfold jwt_verify_text. rewrite Hdec, Hok. done.
  - intros Hge. unfold jwt_verify. rewrite bool_decide_eq_true_2 by done.
    simpl. rewrite bool_decide_eq_true_2 by (unfold one_hour; lia). done.
Qed.

(** A run of C6: issued at 1000 for a client, read at 4599 and at 4600. *)
Lemma verify_generateToken_roundtrip_at_1000 :
  let token := generateToken example_hmac (identity "u1" "usuario") 1000 in
  (jwt_verify example_hmac token "tu_secreto_jwt" 4599 = inr (payload token)
   /\ authenticateToken example_hmac (example_decode [("t", token)])
        (Some "Bearer t") 4599 = Next (identity "u1" "usuario"))
  /\ jwt_verify example_hmac token "tu_secreto_jwt" 4600 = inl TokenExpiredError.
Proof.
  pose proof (verify_generateToken_roundtrip example_hmac "u1" "usuario" 1000 4599)
    as (_ & Hbefore & _).
  pose proof (verify_generateToken_roundtrip example_hmac "u1" "usuario" 1000 4600)
    as (_ & _ & Hafter).
  destruct Hbefore as (Hok & _ & Hguard); [lia|].
  split; [split|].
  - exact Hok.
  - apply (Hguard _ _ "t"); [reflexivity | discriminate | reflexivity].
  - apply Hafter. lia.
Defined.

(** C7, as the code has it: whatever the environment of the process, the
    auth module loads, and always to the same two functions; tokens are
    signed with the literal ['tu_secreto_jwt']; the guard lets through any
    unexpired token signed with that literal, and only tokens signed with
    it. *)
Theorem signing_secret_is_the_literal hmac decode (env : gmap string string) :
  exists m,
    require_auth hmac decode env = Some m
    /\ (forall env', require_auth hmac decode env' = Some m)
    /\ (forall claims now,
          exports_generateToken m claims now = jwt_sign hmac claims "tu_secreto_jwt" 3600 now)
    /\ (forall claims ttl issued authorization text now,
          header_token authorization = Some text -> text <> "" ->
          decode text = Some (jwt_sign hmac claims "tu_secreto_jwt" ttl issued) ->
          now < issued + ttl ->
          exports_authenticateToken m authorization now = Next claims)
    /\ (forall authorization now v,
          exports_authenticateToken m authorization now = Next v ->
          exists text t,
            header_token authorization = Some text /\ decode text = Some t
            /\ signature t = hmac "tu_secreto_jwt" (payload t)).
Proof.
  eexists. split; [reflexivity|]. split_and!.
  - done.
  - done.
  - intros claims ttl issued authorization text now Htok Hne Hdec Hlt. simpl.
    rewrite (authenticateToken_with_token _ _ _ _ _ Htok Hne).
    unfold jwt_verify_text. rewrite Hdec.
    destruct (jwt_verify hmac (jwt_sign hmac claims "tu_secreto_jwt" ttl issued)
                "tu_secreto_jwt" now) as [err|p] eqn:Hv.
    + exfalso. revert Hv. unfold jwt_verify, jwt_sign. simpl.
      rewrite bool_decide_eq_true_2 by done.
      rewrite bool_decide_eq_false_2 by lia. done.
    + apply jwt_verify_ok in Hv as (-> & _). done.
  - intros authorization now v. simpl. unfold authenticateToken.
    destruct (header_token authorization) as [text|] eqn:Htok; simpl; [|done].
    destruct (negb (text =? "")%string); simpl; [|done].
    unfold jwt_verify_text.
    destruct (decode text) as [t|] eqn:Hdec; [|done].
    destruct (jwt_verify hmac t "tu_secreto_jwt" now) as [err|p] eqn:Hv; [done|].
    intros _. apply jwt_verify_ok in Hv as (_ & Hsig & _).
    by exists text, t.
Qed.

(** C7, refuted as stated: with nothing configured the module still loads;
    an environment that supplies a secret changes nothing, and the token it
    issues is signed with the literal, not with the supplied value. *)
Lemma secret_not_read_from_environment :
  let configured : gmap string string := {[ "JWT_SECRET" := "s3cret" ]} in
  let decode := example_decode [] in
  require_auth example_hmac decode ∅ <> None
  /\ require_auth example_hmac decode configured = require_auth example_hmac decode ∅
  /\ exists m,
       require_auth example_hmac decode configured = Some m
       /\ exports_generateToken m (JStr "u1") 0
          = jwt_sign example_hmac (JStr "u1") "tu_secreto_jwt" 3600 0
       /\ exports_generateToken m (JStr "u1") 0
          <> jwt_sign example_hmac (JStr "u1") "s3cret" 3600 0.
Proof.
  split_and!.
  - discriminate.
  - reflexivity.
  - eexists. split_and!; [reflexivity | reflexivity |].
    vm_compute. intros [=].
Qed.

(** ** Queries and saves *)

Lemma findOne_Some (id : string) cond (c : gmap string ServiceRequest.t) r :
  findOne id cond c = Some r <-> c !! id = Some r /\ cond r = true.
Proof.
  unfold findOne. destruct (c !! id) as [r'|].
  - destruct (cond r') eqn:Hc; split.
    + intros [= <-]. done.
    + intros [[= <-] _]. done.
    + discriminate.
    + intros [[= <-] Hr]. congruence.
  - split; [discriminate | intros [[=] _]].
Qed.

Lemma findOne_None (id : string) cond (c : gmap string ServiceRequest.t) :
  findOne id cond c = None <-> forall r, c !! id = Some r -> cond r = false.
Proof.
  unfold findOne. destruct (c !! id) as [r'|].
  - destruct (cond r') eqn:Hc; split.
    + discriminate.
    + intros Hall. specialize (Hall r' eq_refl). congruence.
    + intros _ r [= <-]. done.
    + done.
  - split; [intros _ r [=] | done].
Qed.

Lemma save_found (id : string) modified (c : gmap string ServiceRequest.t) r :
  c !! id = Some r -> save id modified c = <[id := modified r]> c.
Proof.
  intros Hr. unfold save. apply map_eq. intros j.
  destruct (decide (id = j)) as [<-|Hne].
  - rewrite lookup_alter_eq, lookup_insert_eq, Hr. done.
  - rewrite lookup_alter_ne, lookup_insert_ne by done. done.
Qed.

Lemma valid_estado_Some (estado : option string) :
  valid_estado estado = true <->
  estado = Some "aceptada" \/ estado = Some "rechazada".
Proof.
  destruct estado as [e|]; simpl.
  - rewrite bool_decide_eq_true, !elem_of_cons, elem_of_nil.
    split.
    + intros [-> | [-> | []]]; [by left | by right].
    + intros [[= ->] | [= ->]]; [by left | by right; left].
  - split; [discriminate | intros [[=] | [=]]].
Qed.

(** The first layer for [PUT /:id] answers; the second is never reached. *)
Lemma dispatch_put_id (id : string) (req : request) (db : Db) :
  id <> "" -> req_method req = PUT -> req_path req = [id] ->
  dispatch serviceRequests_router req db =
    Some (set_serviceRequests db
            (put_id id (req_userId req) (req_body req) (serviceRequests db)).1,
          (put_id id (req_userId req) (req_body req) (serviceRequests db)).2).
Proof.
  intros Hid Hm Hp. unfold serviceRequests_router. simpl. rewrite Hm, Hp. simpl.
  rewrite (bool_decide_eq_false_2 _ Hid). done.
Qed.

(** The first layer for [POST /] answers; the checked one is never reached. *)
Lemma dispatch_post_root (req : request) (db : Db) :
  req_method req = POST -> req_path req = [] ->
  dispatch serviceRequests_router req db =
    Some (set_serviceRequests db
            (post_root (req_oid req) (req_userId req) (req_body req) (serviceRequests db)).1,
          (post_root (req_oid req) (req_userId req) (req_body req) (serviceRequests db)).2).
Proof.
  intros Hm Hp. unfold serviceRequests_router. simpl. rewrite Hm, Hp. done.
Qed.

Lemma dispatch_put_id_pagar (id : string) (req : request) (db : Db) :
  id <> "" -> req_method req = PUT -> req_path req = [id; "pagar"] ->
  dispatch serviceRequests_router req db =
    Some (set_serviceRequests db
            (put_id_pagar id (req_userId req) (serviceRequests db)).1,
          (put_id_pagar id (req_userId req) (serviceRequests db)).2).
Proof.
  intros Hid Hm Hp. unfold serviceRequests_router. simpl. rewrite Hm, Hp. simpl.
  rewrite (bool_decide_eq_false_2 _ Hid). done.
Qed.

Lemma put_id_found (id uid e : string) (b : Body.t) (c : gmap string ServiceRequest.t) r :
  Body.estado b = Some e -> valid_estado (Some e) = true ->
  c !! id = Some r -> ServiceRequest.nurse_id r = Some uid ->
  put_id id uid b c =
    (<[id := ServiceRequest.set_estado e r]> c,
     mkResponse 200 (RequestDoc id (ServiceRequest.set_estado e r))).
Proof.
  intros He Hv Hr Hn. unfold put_id, findOneAndUpdate.
  rewrite He, Hv, Hr. simpl. rewrite bool_decide_eq_true_2 by done. done.
Qed.

Lemma put_id_status (id uid : string) (b : Body.t) (c : gmap string ServiceRequest.t) :
  status (put_id id uid b c).2 =
    if valid_estado (Body.estado b) then
      match c !! id with
      | Some r => if bool_decide (ServiceRequest.nurse_id r = Some uid) then 200 else 404
      | None => 404
      end
    else 400.
Proof.
  unfold put_id, findOneAndUpdate.
  destruct (valid_estado (Body.estado b)); simpl; [|done].
  destruct (c !! id) as [r|]; [|done].
  case_bool_decide; done.
Qed.

(** ** Accept or reject *)

(** C1, as the code has it: accept/reject is one atomic conditional update
    keyed on [(id, nurse_id)] and on nothing else. It succeeds exactly when
    the submitted state is valid and a request with that id is assigned to
    the caller, whatever the request's state, and then stores the submitted
    state; a failure is 400 or 404 and changes nothing; a further attempt
    after a successful one succeeds as well, the later state standing. *)
Theorem put_id_keyed_on_id_and_nurse (id uid : string) (b : Body.t)
    (c : gmap string ServiceRequest.t) :
  (status (put_id id uid b c).2 = 200 <->
     valid_estado (Body.estado b) = true
     /\ exists r, c !! id = Some r /\ ServiceRequest.nurse_id r = Some uid)
  /\ (forall r e,
        Body.estado b = Some e -> valid_estado (Some e) = true ->
        c !! id = Some r -> ServiceRequest.nurse_id r = Some uid ->
        put_id id uid b c =
          (<[id := ServiceRequest.set_estado e r]> c,
           mkResponse 200 (RequestDoc id (ServiceRequest.set_estado e r))))
  /\ (status (put_id id uid b c).2 <> 200 -> (put_id id uid b c).1 = c)
  /\ (status (put_id id uid b c).2 = 200 \/ status (put_id id uid b c).2 = 400
      \/ status (put_id id uid b c).2 = 404)
  /\ (forall b',
        valid_estado (Body.estado b') = true ->
        status (put_id id uid b c).2 = 200 ->
        status (put_id id uid b' (put_id id uid b c).1).2 = 200
        /\ ServiceRequest.estado <$> (put_id id uid b' (put_id id uid b c).1).1 !! id
           = Body.estado b')
  /\ (forall req db,
        id <> "" -> req_method req = PUT -> req_path req = [id] ->
        dispatch serviceRequests_router req db =
          Some (set_serviceRequests db
                  (put_id id (req_userId req) (req_body req) (serviceRequests db)).1,
                (put_id id (req_userId req) (req_body req) (serviceRequests db)).2)).
Proof.
  assert (Hiff : status (put_id id uid b c).2 = 200 <->
     valid_estado (Body.estado b) = true
     /\ exists r, c !! id = Some r /\ ServiceRequest.nurse_id r = Some uid).
  { rewrite put_id_status.
    destruct (valid_estado (Body.estado b)); [|split; [discriminate | intros [[=] _]]].
    destruct (c !! id) as [r|] eqn:Hr.
    - case_bool_decide as Hn; split.
      + intros _. split; [done|]. by exists r.
      + done.
      + discriminate.
      + intros (_ & r' & [= <-] & Hn'). done.
    - split; [discriminate | intros (_ & r' & [=] & _)]. }
  split_and!.
  - exact Hiff.
  - intros r e. apply put_id_found.
  - intros Hne. unfold put_id, findOneAndUpdate in *.
    destruct (valid_estado (Body.estado b)); simpl in *; [|done].
    destruct (c !! id) as [r|]; [|done].
    case_bool_decide; simpl in *; done.
  - rewrite put_id_status.
    destruct (valid_estado (Body.estado b)); [|by right; left].
    destruct (c !! id) as [r|]; [|by right; right].
    case_bool_decide; [by left | by right; right].
  - intros b' Hv' Hok. apply Hiff in Hok as (Hv & r & Hr & Hn).
    destruct (Body.estado b) as [e|] eqn:He; [|done].
    destruct (Body.estado b') as [e'|] eqn:He'; [|done].
    rewrite (put_id_found id uid e b c r He Hv Hr Hn). simpl.
    rewrite (put_id_found id uid e' b' _ (ServiceRequest.set_estado e r) He' Hv'
               (lookup_insert_eq _ _ _) Hn).
    simpl. rewrite lookup_insert_eq. done.
  - intros req db. apply dispatch_put_id.
Qed.

(** C1, refuted as stated: on a pending request, an accept and then a
    reject by the assigned nurse both succeed; neither is turned away. *)
Lemma second_accept_reject_also_succeeds :
  let r0 := newRequest "u1" (Body.creation "n1" ["p1"] 50) in
  let c0 : gmap string ServiceRequest.t := {[ "r1" := r0 ]} in
  let first := put_id "r1" "n1" (Body.of_estado "aceptada") c0 in
  let second := put_id "r1" "n1" (Body.of_estado "rechazada") first.1 in
  ServiceRequest.estado r0 = "pendiente"
  /\ status first.2 = 200
  /\ ServiceRequest.estado <$> first.1 !! "r1" = Some "aceptada"
  /\ status second.2 = 200
  /\ ServiceRequest.estado <$> second.1 !! "r1" = Some "rechazada".
Proof.
  split_and!; vm_compute; reflexivity.
Qed.

(** ** Complete *)

Lemma put_id_completar_found (id uid : string) (b : Body.t)
    (c : gmap string ServiceRequest.t) r :
  c !! id = Some r -> ServiceRequest.nurse_id r = Some uid ->
  ServiceRequest.estado r = "pendiente" ->
  put_id_completar id uid b c =
    (<[id := ServiceRequest.set_estado "completado" r]> c,
     mkResponse 200 (RequestDoc id (ServiceRequest.set_estado "completado" r))).
Proof.
  intros Hr Hn He. unfold put_id_completar.
  destruct (findOne id _ c) as [r'|] eqn:Hf.
  - apply findOne_Some in Hf as [Hr' _].
    assert (r' = r) as -> by congruence.
    rewrite (save_found _ _ _ _ Hr). done.
  - exfalso. rewrite findOne_None in Hf. specialize (Hf r Hr). simpl in Hf.
    rewrite !bool_decide_eq_true_2 in Hf by done. discriminate.
Qed.

Lemma put_id_completar_refused (id uid : string) (b : Body.t)
    (c : gmap string ServiceRequest.t) :
  (forall r, c !! id = Some r ->
             ~ (ServiceRequest.nurse_id r = Some uid /\ ServiceRequest.estado r = "pendiente")) ->
  put_id_completar id uid b c = (c, mkResponse 403 Envelope).
Proof.
  intros Hno. unfold put_id_completar.
  destruct (findOne id _ c) as [r'|] eqn:Hf; [|done].
  exfalso. apply findOne_Some in Hf as [Hr' Hc].
  apply andb_true_iff in Hc as [Hn He].
  apply bool_decide_eq_true in Hn, He. by apply (Hno r' Hr').
Qed.

(** C2, as the code has it: complete, by the assigned nurse, requires the
    request to be pending; when it succeeds, one save sets the state to
    completed and leaves every other stored field as it was, whatever
    notes were submitted; the answer shows the request as stored.
    Otherwise it answers 403 and changes nothing. *)
Theorem put_id_completar_from_pendiente (id uid : string) (b : Body.t)
    (c : gmap string ServiceRequest.t) :
  (status (put_id_completar id uid b c).2 = 200 <->
     exists r, c !! id = Some r /\ ServiceRequest.nurse_id r = Some uid
               /\ ServiceRequest.estado r = "pendiente")
  /\ (forall r,
        c !! id = Some r -> ServiceRequest.nurse_id r = Some uid ->
        ServiceRequest.estado r = "pendiente" ->
        exists r',
          put_id_completar id uid b c = (<[id := r']> c, mkResponse 200 (RequestDoc id r'))
          /\ r' = ServiceRequest.set_estado "completado" r
          /\ ServiceRequest.estado r' = "completado"
          /\ ServiceRequest.user_id r' = ServiceRequest.user_id r
          /\ ServiceRequest.nurse_id r' = ServiceRequest.nurse_id r
          /\ ServiceRequest.patient_id r' = ServiceRequest.patient_id r
          /\ ServiceRequest.detalles r' = ServiceRequest.detalles r
          /\ ServiceRequest.fecha r' = ServiceRequest.fecha r
          /\ ServiceRequest.tarifa r' = ServiceRequest.tarifa r
          /\ ServiceRequest.pago_realizado r' = ServiceRequest.pago_realizado r)
  /\ (forall b', put_id_completar id uid b' c = put_id_completar id uid b c)
  /\ (status (put_id_completar id uid b c).2 <> 200 ->
      put_id_completar id uid b c = (c, mkResponse 403 Envelope)).
Proof.
  destruct (c !! id) as [r|] eqn:Hr.
  - destruct (decide (ServiceRequest.nurse_id r = Some uid
                      /\ ServiceRequest.estado r = "pendiente")) as [[Hn He]|Hno].
    + pose proof (put_id_completar_found id uid b c r Hr Hn He) as Heq.
      split_and!.
      * rewrite Heq. simpl. split; [|done]. intros _. by exists r.
      * intros r0 [= <-] _ _. eexists. split; [exact Heq|]. done.
      * done.
      * rewrite Heq. simpl. done.
    + assert (Heq : put_id_completar id uid b c = (c, mkResponse 403 Envelope)).
      { apply put_id_completar_refused. intros r0 Hr0.
        assert (r0 = r) as -> by congruence. done. }
      split_and!.
      * rewrite Heq. simpl. split; [discriminate|].
        intros (r0 & [= <-] & Hn & He). exfalso. by apply Hno.
      * intros r0 [= <-] Hn He. exfalso. by apply Hno.
      * done.
      * done.
  - assert (Heq : put_id_completar id uid b c = (c, mkResponse 403 Envelope)).
    { apply put_id_completar_refused. intros r0 Hr0. congruence. }
    split_and!.
    + rewrite Heq. simpl. split; [discriminate|]. intros (r0 & [=] & _).
    + intros r0 [=].
    + done.
    + done.
Qed.

(** C2, refuted as stated: once the nurse has accepted a request, her
    complete call on it is refused and the request stays accepted. *)
Lemma completar_refuses_accepted_request :
  let r0 := newRequest "u1" (Body.creation "n1" ["p1"] 50) in
  let c0 : gmap string ServiceRequest.t := {[ "r1" := r0 ]} in
  let accepted := (put_id "r1" "n1" (Body.of_estado "aceptada") c0).1 in
  let attempt := put_id_completar "r1" "n1" (Body.of_documentacion "stable") accepted in
  ServiceRequest.estado <$> accepted !! "r1" = Some "aceptada"
  /\ ServiceRequest.nurse_id <$> accepted !! "r1" = Some (Some "n1")
  /\ status attempt.2 = 403
  /\ attempt.1 = accepted
  /\ ServiceRequest.estado <$> attempt.1 !! "r1" = Some "aceptada".
Proof.
  split_and!; vm_compute; reflexivity.
Qed.

(** ** Collect payment *)

Lemma put_id_pagar_found (id uid : string) (c : gmap string ServiceRequest.t) r :
  c !! id = Some r -> ServiceRequest.user_id r = uid ->
  ServiceRequest.pago_realizado r = false ->
  put_id_pagar id uid c =
    (<[id := ServiceRequest.set_pago_realizado true r]> c,
     mkResponse 200 (RequestDoc id (ServiceRequest.set_pago_realizado true r))).
Proof.
  intros Hr Hu Hp. unfold put_id_pagar.
  destruct (findOne id _ c) as [r'|] eqn:Hf.
  - apply findOne_Some in Hf as [Hr' _].
    assert (r' = r) as -> by congruence.
    rewrite (save_found _ _ _ _ Hr). done.
  - exfalso. rewrite findOne_None in Hf. specialize (Hf r Hr). simpl in Hf.
    rewrite !bool_decide_eq_true_2 in Hf by done. discriminate.
Qed.

Lemma put_id_pagar_refused (id uid : string) (c : gmap string ServiceRequest.t) :
  (forall r, c !! id = Some r ->
             ~ (ServiceRequest.user_id r = uid /\ ServiceRequest.pago_realizado r = false)) ->
  put_id_pagar id uid c = (c, mkResponse 403 Envelope).
Proof.
  intros Hno. unfold put_id_pagar.
  destruct (findOne id _ c) as [r'|] eqn:Hf; [|done].
  exfalso. apply findOne_Some in Hf as [Hr' Hc].
  apply andb_true_iff in Hc as [Hu Hp].
  apply bool_decide_eq_true in Hu, Hp. by apply (Hno r' Hr').
Qed.

(** C3, as the code has it: collect-payment, by the client who created the
    request, succeeds exactly when the request is theirs and not yet paid,
    whatever its state; a success sets [pago_realizado] and nothing else,
    and the router leaves the transactions as they were; a second call
    answers 403. *)
Theorem put_id_pagar_once (id uid : string) (c : gmap string ServiceRequest.t) :
  (status (put_id_pagar id uid c).2 = 200 <->
     exists r, c !! id = Some r /\ ServiceRequest.user_id r = uid
               /\ ServiceRequest.pago_realizado r = false)
  /\ (forall r,
        c !! id = Some r -> ServiceRequest.user_id r = uid ->
        ServiceRequest.pago_realizado r = false ->
        put_id_pagar id uid c =
          (<[id := ServiceRequest.set_pago_realizado true r]> c,
           mkResponse 200 (RequestDoc id (ServiceRequest.set_pago_realizado true r)))
        /\ ServiceRequest.pago_realizado (ServiceRequest.set_pago_realizado true r) = true
        /\ ServiceRequest.estado (ServiceRequest.set_pago_realizado true r)
           = ServiceRequest.estado r)
  /\ (status (put_id_pagar id uid c).2 <> 200 ->
      put_id_pagar id uid c = (c, mkResponse 403 Envelope))
  /\ put_id_pagar id uid (put_id_pagar id uid c).1
     = ((put_id_pagar id uid c).1, mkResponse 403 Envelope)
  /\ (forall req db,
        id <> "" -> req_method req = PUT -> req_path req = [id; "pagar"] ->
        exists db' answer,
          dispatch serviceRequests_router req db = Some (db', answer)
          /\ answer = (put_id_pagar id (req_userId req) (serviceRequests db)).2
          /\ transactions db' = transactions db).
Proof.
  assert (Hcases :
    (exists r, c !! id = Some r /\ ServiceRequest.user_id r = uid
               /\ ServiceRequest.pago_realizado r = false)
    \/ (forall r, c !! id = Some r ->
          ~ (ServiceRequest.user_id r = uid /\ ServiceRequest.pago_realizado r = false))).
  { destruct (c !! id) as [r|] eqn:Hr; [|right; intros r0 [=]].
    destruct (decide (ServiceRequest.user_id r = uid
                      /\ ServiceRequest.pago_realizado r = false)) as [[Hu Hp]|Hno].
    - left. by exists r.
    - right. intros r0 [= <-]. done. }
  split_and!.
  - destruct Hcases as [(r & Hr & Hu & Hp) | Hno].
    + rewrite (put_id_pagar_found _ _ _ _ Hr Hu Hp). simpl.
      split; [|done]. intros _. by exists r.
    + rewrite (put_id_pagar_refused _ _ _ Hno). simpl.
      split; [discriminate|]. intros (r & Hr & Hu & Hp). exfalso. by apply (Hno r Hr).
  - intros r Hr Hu Hp. split; [by apply put_id_pagar_found | done].
  - intros Hne. destruct Hcases as [(r & Hr & Hu & Hp) | Hno].
    + rewrite (put_id_pagar_found _ _ _ _ Hr Hu Hp) in Hne. done.
    + by apply put_id_pagar_refused.
  - destruct Hcases as [(r & Hr & Hu & Hp) | Hno].
    + rewrite (put_id_pagar_found _ _ _ _ Hr Hu Hp). simpl.
      apply put_id_pagar_refused. intros r'. rewrite lookup_insert_eq.
      intros [= <-] [_ Hp']. simpl in Hp'. discriminate.
    + rewrite (put_id_pagar_refused _ _ _ Hno). simpl.
      by apply put_id_pagar_refused.
  - intros req db Hid Hm Hp. rewrite (dispatch_put_id_pagar id req db Hid Hm Hp).
    eexists _, _. split; [reflexivity|]. done.
Qed.

(** C3, refuted as stated: the client's call on a request that is still
    pending succeeds and marks it paid, and no transaction is recorded. *)
Lemma pagar_accepts_pending_request :
  let r0 := newRequest "u1" (Body.creation "n1" ["p1"] 50) in
  let db0 := mkDb {[ "r1" := r0 ]} ∅ [] [] ∅ [] in
  let req := mkRequest PUT ["r1"; "pagar"] "u1" Body.empty "o1" 0 in
  ServiceRequest.estado r0 = "pendiente"
  /\ (status ∘ snd <$> dispatch serviceRequests_router req db0) = Some 200
  /\ ServiceRequest.estado <$> serviceRequests (serve req db0) !! "r1" = Some "pendiente"
  /\ ServiceRequest.pago_realizado <$> serviceRequests (serve req db0) !! "r1" = Some true
  /\ transactions (serve req db0) = ∅.
Proof.
  split_and!; vm_compute; reflexivity.
Qed.

(** ** Create *)

(** C4 fails on the router: the unchecked create is registered first on
    [POST /] and answers every such request, so a client who names another
    client's patient gets the request created (201, pending, in the
    caller's name), and the answer is the same whatever patients are on
    record. The second create, which was to check the patients, is never
    reached; were it, it would raise on the unbound [Patient] and answer
    400 to every request. *)
Theorem create_with_foreign_patient_succeeds :
  let p2 := Patient.mk "Ana" "1950-01-01" "F" "baja" "reposo" "c2" in
  let body := Body.creation "n1" ["p2"] 50 in
  let db0 := mkDb ∅ {[ "p2" := p2 ]} [] [] ∅ [] in
  let req := mkRequest POST [] "c1" body "r1" 0 in
  Patient.usuario_id p2 <> req_userId req
  /\ Body.patient_ids body = Some ["p2"]
  /\ dispatch serviceRequests_router req db0
     = Some (set_serviceRequests db0 {[ "r1" := newRequest "c1" body ]},
             mkResponse 201 (RequestDoc "r1" (newRequest "c1" body)))
  /\ serviceRequests (serve req db0) !! "r1" = Some (newRequest "c1" body)
  /\ ServiceRequest.estado (newRequest "c1" body) = "pendiente"
  /\ ServiceRequest.user_id (newRequest "c1" body) = "c1"
  /\ (forall ps,
        snd <$> dispatch serviceRequests_router req (mkDb ∅ ps [] [] ∅ [])
        = Some (mkResponse 201 (RequestDoc "r1" (newRequest "c1" body))))
  /\ post_root_checked "r1" "c1" body (serviceRequests db0) = (∅, mkResponse 400 Envelope).
Proof.
  split_and!.
  - discriminate.
  - reflexivity.
  - reflexivity.
  - vm_compute. reflexivity.
  - reflexivity.
  - reflexivity.
  - intros ps. reflexivity.
  - reflexivity.
Qed.

(** ** Denials *)

Lemma put_id_reporte_refused (id uid : string) (b : Body.t)
    (c : gmap string ServiceRequest.t) :
  (forall r, c !! id = Some r ->
             ~ (ServiceRequest.nurse_id r = Some uid /\ ServiceRequest.estado r = "completado")) ->
  put_id_reporte id uid b c = (c, mkResponse 403 Envelope).
Proof.
  intros Hno. unfold put_id_reporte.
  destruct (findOne id _ c) as [r'|] eqn:Hf; [|done].
  exfalso. apply findOne_Some in Hf as [Hr' Hc].
  apply andb_true_iff in Hc as [Hn He].
  apply bool_decide_eq_true in Hn, He. by apply (Hno r' Hr').
Qed.

Lemma involved_false (uid : string) (r : ServiceRequest.t) :
  ServiceRequest.user_id r <> uid -> ServiceRequest.nurse_id r <> Some uid ->
  involved uid r = false.
Proof.
  intros Hu Hn. unfold involved. rewrite !bool_decide_eq_false_2 by done. done.
Qed.

(** C8, as the code has it: when the record exists and the caller has no
    right over it, pay, payment state, complete, report and both message
    routes answer 403, while accept/reject, the client's read of a request
    and the invoice route answer 404, as they do for an absent record. *)
Theorem denial_status_by_route (id uid : string) (b : Body.t)
    (c : gmap string ServiceRequest.t) (r : ServiceRequest.t) :
  c !! id = Some r ->
  ServiceRequest.user_id r <> uid ->
  ServiceRequest.nurse_id r <> Some uid ->
  put_id_pagar id uid c = (c, mkResponse 403 Envelope)
  /\ get_id_estado_pago id uid c = mkResponse 403 Envelope
  /\ put_id_completar id uid b c = (c, mkResponse 403 Envelope)
  /\ put_id_reporte id uid b c = (c, mkResponse 403 Envelope)
  /\ (forall now ms, Body.service_request_id b = Some id ->
        post_message uid b now c ms = (ms, mkResponse 403 Envelope))
  /\ (forall ms, get_messages id uid c ms = mkResponse 403 Envelope)
  /\ (valid_estado (Body.estado b) = true ->
      put_id id uid b c = (c, mkResponse 404 Envelope))
  /\ get_id id uid c = mkResponse 404 Envelope
  /\ (forall id', c !! id' = None -> get_id id' uid c = mkResponse 404 Envelope)
  /\ (forall id',
        c !! id' = None -> valid_estado (Body.estado b) = true ->
        put_id id' uid b c = (c, mkResponse 404 Envelope))
  /\ (forall tid now ts t,
        ts !! tid = Some t -> Transaction.nurse_id t <> uid ->
        post_id_factura tid uid now ts = mkResponse 404 Envelope)
  /\ (forall tid now ts,
        ts !! tid = None -> post_id_factura tid uid now ts = mkResponse 404 Envelope).
Proof.
  intros Hr Hu Hn. split_and!.
  - apply put_id_pagar_refused. intros r0 Hr0 [Hu0 _].
    assert (r0 = r) as -> by congruence. done.
  - unfold get_id_estado_pago, findOne. rewrite Hr.
    rewrite bool_decide_eq_false_2 by done. done.
  - apply put_id_completar_refused. intros r0 Hr0 [Hn0 _].
    assert (r0 = r) as -> by congruence. done.
  - apply put_id_reporte_refused. intros r0 Hr0 [Hn0 _].
    assert (r0 = r) as -> by congruence. done.
  - intros now ms Hsid. unfold post_message, findOne_opt, findOne.
    rewrite Hsid. simpl. rewrite Hr, involved_false by done. done.
  - intros ms. unfold get_messages, findOne.
    rewrite Hr, involved_false by done. done.
  - intros Hv. unfold put_id, findOneAndUpdate. rewrite Hv, Hr. simpl.
    rewrite bool_decide_eq_false_2 by done. done.
  - unfold get_id, findOne. rewrite Hr.
    rewrite (bool_decide_eq_false_2 (ServiceRequest.user_id r = uid)) by done. done.
  - intros id' Hnone. unfold get_id, findOne. rewrite Hnone. done.
  - intros id' Hnone Hv. unfold put_id, findOneAndUpdate. rewrite Hv, Hnone. done.
  - intros tid now ts t Ht Hne. unfold post_id_factura. rewrite Ht.
    rewrite bool_decide_eq_false_2 by done. done.
  - intros tid now ts Ht. unfold post_id_factura. rewrite Ht. done.
Qed.

(** A run of C8: the request of client u1 and nurse n1, addressed by n2. *)
Lemma denial_status_by_route_for_stranger :
  let r0 := newRequest "u1" (Body.creation "n1" ["p1"] 50) in
  let c0 : gmap string ServiceRequest.t := {[ "r1" := r0 ]} in
  put_id_pagar "r1" "n2" c0 = (c0, mkResponse 403 Envelope)
  /\ put_id "r1" "n2" (Body.of_estado "aceptada") c0 = (c0, mkResponse 404 Envelope).
Proof.
  pose proof (denial_status_by_route "r1" "n2" (Body.of_estado "aceptada")
                {[ "r1" := newRequest "u1" (Body.creation "n1" ["p1"] 50) ]}
                (newRequest "u1" (Body.creation "n1" ["p1"] 50))) as H.
  destruct H as (Hpagar & _ & _ & _ & _ & _ & Hput & _).
  - apply lookup_singleton_eq.
  - discriminate.
  - discriminate.
  - split; [exact Hpagar | apply Hput; reflexivity].
Defined.

(** C8, refuted as stated: the request exists, the caller is a nurse it is
    not assigned to, and accept/reject answers 404. *)
Lemma put_id_hides_request_from_stranger :
  let r0 := newRequest "u1" (Body.creation "n1" ["p1"] 50) in
  let c0 : gmap string ServiceRequest.t := {[ "r1" := r0 ]} in
  c0 !! "r1" = Some r0
  /\ ServiceRequest.nurse_id r0 <> Some "n2"
  /\ status (put_id "r1" "n2" (Body.of_estado "aceptada") c0).2 = 404
  /\ status (get_id "r1" "n2" c0) = 404.
Proof.
  split_and!.
  - apply lookup_singleton_eq.
  - discriminate.
  - vm_compute. reflexivity.
  - vm_compute. reflexivity.
Qed.

(** ** The parties of a request *)

Lemma same_parties_refl (c : gmap string ServiceRequest.t) : same_parties c c.
Proof. intros id r Hr. by exists r. Qed.

Lemma same_parties_trans (c1 c2 c3 : gmap string ServiceRequest.t) :
  same_parties c1 c2 -> same_parties c2 c3 -> same_parties c1 c3.
Proof.
  intros H12 H23 id r Hr.
  destruct (H12 id r Hr) as (r2 & Hr2 & Hp2).
  destruct (H23 id r2 Hr2) as (r3 & Hr3 & Hp3).
  exists r3. split; [done | congruence].
Qed.

Lemma same_parties_insert (id : string) (r1 r1' : ServiceRequest.t)
    (c : gmap string ServiceRequest.t) :
  c !! id = Some r1 -> parties r1' = parties r1 -> same_parties c (<[id := r1']> c).
Proof.
  intros Hr1 Hp j r Hr. destruct (decide (id = j)) as [<-|Hne].
  - exists r1'. rewrite lookup_insert_eq. split; [done | congruence].
  - exists r. by rewrite lookup_insert_ne.
Qed.

Lemma same_parties_insert_request (oid : string) (r : ServiceRequest.t)
    (c : gmap string ServiceRequest.t) :
  same_parties c (insert_request oid r c).1.
Proof.
  unfold insert_request. destruct (c !! oid) eqn:Hoid; simpl.
  - apply same_parties_refl.
  - intros j r0 Hr0. exists r0. split; [|done].
    rewrite lookup_insert_ne; [done|]. intros ->. congruence.
Qed.

Lemma same_parties_findOneAndUpdate (id : string) cond update
    (c : gmap string ServiceRequest.t) :
  (forall r, parties (update r) = parties r) ->
  same_parties c (findOneAndUpdate id cond update c).1.
Proof.
  intros Hupd. unfold findOneAndUpdate.
  destruct (c !! id) as [r|] eqn:Hr; [|apply same_parties_refl].
  destruct (cond r); [|apply same_parties_refl].
  simpl. by apply (same_parties_insert id r).
Qed.

Lemma same_parties_save (id : string) modified (c : gmap string ServiceRequest.t) :
  (forall r, parties (modified r) = parties r) ->
  same_parties c (save id modified c).
Proof.
  intros Hmod. destruct (c !! id) as [r|] eqn:Hr.
  - rewrite (save_found _ _ _ _ Hr). by apply (same_parties_insert id r).
  - unfold save. intros j r0 Hr0. exists r0. split; [|done].
    rewrite lookup_alter_ne; [done|]. intros ->. congruence.
Qed.

Lemma same_parties_post_root oid uid b c : same_parties c (post_root oid uid b c).1.
Proof.
  unfold post_root.
  destruct (castable (Body.fecha b) && castable (Body.tarifa b));
    [apply same_parties_insert_request | apply same_parties_refl].
Qed.

Lemma same_parties_post_root_checked oid uid b c :
  same_parties c (post_root_checked oid uid b c).1.
Proof. apply same_parties_refl. Qed.

Lemma same_parties_put_id id uid b c : same_parties c (put_id id uid b c).1.
Proof.
  unfold put_id. destruct (valid_estado (Body.estado b)); simpl; [|apply same_parties_refl].
  pose proof (same_parties_findOneAndUpdate id
    (fun r => bool_decide (ServiceRequest.nurse_id r = Some uid))
    (ServiceRequest.set_estado (default "" (Body.estado b))) c (fun _ => eq_refl)) as H.
  destruct (findOneAndUpdate _ _ _ c) as [c' [r|]]; exact H.
Qed.

Lemma same_parties_put_id_notify id uid b c :
  same_parties c (put_id_notify id uid b c).1.
Proof.
  unfold put_id_notify.
  destruct (valid_estado (Body.estado b)); simpl; [|apply same_parties_refl].
  pose proof (same_parties_findOneAndUpdate id
    (fun r => bool_decide (ServiceRequest.nurse_id r = Some uid))
    (ServiceRequest.set_estado (default "" (Body.estado b))) c (fun _ => eq_refl)) as H.
  destruct (findOneAndUpdate _ _ _ c) as [c' [r|]]; [|exact H].
  case_bool_decide; exact H.
Qed.

Lemma same_parties_put_id_pagar id uid c : same_parties c (put_id_pagar id uid c).1.
Proof.
  unfold put_id_pagar. destruct (findOne id _ c); simpl; [|apply same_parties_refl].
  by apply same_parties_save.
Qed.

Lemma same_parties_put_id_completar id uid b c :
  same_parties c (put_id_completar id uid b c).1.
Proof.
  unfold put_id_completar. destruct (findOne id _ c); simpl; [|apply same_parties_refl].
  by apply same_parties_save.
Qed.

Lemma same_parties_put_id_reporte id uid b c :
  same_parties c (put_id_reporte id uid b c).1.
Proof.
  unfold put_id_reporte. destruct (findOne id _ c); apply same_parties_refl.
Qed.

Lemma keeps_parties_reads h : keeps_parties (reads h).
Proof. intros params req db db' answer [= <- _]. apply same_parties_refl. Qed.

Lemma keeps_parties_writes h :
  (forall params req db, same_parties (serviceRequests db) (h params req db).1) ->
  keeps_parties (writes h).
Proof. intros Hh params req db db' answer [= <- _]. simpl. apply Hh. Qed.

Lemma serviceRequests_router_keeps_parties :
  Forall (fun layer => keeps_parties (route_handler layer)) serviceRequests_router.
Proof.
  unfold serviceRequests_router.
  repeat (apply Forall_cons; split);
    [..| by apply Forall_nil];
    simpl; first [ apply keeps_parties_reads | apply keeps_parties_writes; intros params req db ].
  - apply same_parties_post_root.
  - apply same_parties_post_root_checked.
  - apply same_parties_put_id.
  - apply same_parties_put_id_pagar.
  - apply same_parties_put_id_completar.
  - apply same_parties_put_id_reporte.
  - apply same_parties_put_id_notify.
Qed.

Lemma dispatch_keeps_parties (stack : list route) (req : request) (db db' : Db) answer :
  Forall (fun layer => keeps_parties (route_handler layer)) stack ->
  dispatch stack req db = Some (db', answer) ->
  same_parties (serviceRequests db) (serviceRequests db').
Proof.
  induction 1 as [|layer rest Hlayer _ IH]; simpl; [discriminate|].
  case_bool_decide; [|exact IH].
  destruct (match_path (route_path layer) (req_path req)) as [params|]; [|exact IH].
  destruct (route_handler layer params req db) as [[db1 answer1]|] eqn:Hh; [|exact IH].
  intros [= <- <-]. by eapply Hlayer.
Qed.

Lemma serve_keeps_parties (req : request) (db : Db) :
  same_parties (serviceRequests db) (serviceRequests (serve req db)).
Proof.
  unfold serve.
  destruct (dispatch serviceRequests_router req db) as [[db' answer]|] eqn:Hd.
  - eapply dispatch_keeps_parties; [apply serviceRequests_router_keeps_parties | exact Hd].
  - apply same_parties_refl.
Qed.

Lemma serve_all_keeps_parties (reqs : list request) (db : Db) :
  same_parties (serviceRequests db) (serviceRequests (serve_all reqs db)).
Proof.
  revert db. induction reqs as [|req reqs IH]; intros db; simpl.
  - apply same_parties_refl.
  - eapply same_parties_trans; [apply serve_keeps_parties | apply IH].
Qed.

(** After a conditional update or a save, a stored request is either the
    one that was there or that one updated. *)
Lemma lookup_findOneAndUpdate (id : string) cond update
    (c : gmap string ServiceRequest.t) (j : string) (r r' : ServiceRequest.t) :
  c !! j = Some r -> (findOneAndUpdate id cond update c).1 !! j = Some r' ->
  r' = r \/ r' = update r.
Proof.
  intros Hr. unfold findOneAndUpdate.
  destruct (c !! id) as [r0|] eqn:Hr0; simpl; [|left; congruence].
  destruct (cond r0); simpl; [|left; congruence].
  destruct (decide (id = j)) as [<-|Hne].
  - rewrite lookup_insert_eq. intros [= <-]. right. congruence.
  - rewrite lookup_insert_ne by done. left. congruence.
Qed.

Lemma lookup_save (id : string) modified
    (c : gmap string ServiceRequest.t) (j : string) (r r' : ServiceRequest.t) :
  c !! j = Some r -> save id modified c !! j = Some r' ->
  r' = r \/ r' = modified r.
Proof.
  intros Hr. unfold save. destruct (decide (id = j)) as [<-|Hne].
  - rewrite lookup_alter_eq, Hr. simpl. intros [= <-]. by right.
  - rewrite lookup_alter_ne by done. left. congruence.
Qed.

Lemma put_id_changes_estado_only id uid b c (j : string) (r r' : ServiceRequest.t) :
  c !! j = Some r -> (put_id id uid b c).1 !! j = Some r' ->
  r' = ServiceRequest.set_estado (ServiceRequest.estado r') r.
Proof.
  intros Hr. unfold put_id.
  destruct (valid_estado (Body.estado b)); simpl.
  - pose proof (lookup_findOneAndUpdate id
      (fun r => bool_decide (ServiceRequest.nurse_id r = Some uid))
      (ServiceRequest.set_estado (default "" (Body.estado b))) c j r r' Hr) as H.
    destruct (findOneAndUpdate _ _ _ c) as [c' [r0|]]; simpl in *;
      intros Hr'; destruct (H Hr') as [-> | ->]; by destruct r.
  - intros Hr'. assert (r' = r) as -> by congruence. by destruct r.
Qed.

Lemma put_id_pagar_changes_pago_realizado_only id uid c (j : string)
    (r r' : ServiceRequest.t) :
  c !! j = Some r -> (put_id_pagar id uid c).1 !! j = Some r' ->
  r' = ServiceRequest.set_pago_realizado (ServiceRequest.pago_realizado r') r.
Proof.
  intros Hr. unfold put_id_pagar. destruct (findOne id _ c); simpl.
  - intros Hr'. destruct (lookup_save _ _ _ _ _ _ Hr Hr') as [-> | ->]; by destruct r.
  - intros Hr'. assert (r' = r) as -> by congruence. by destruct r.
Qed.

Lemma put_id_completar_changes_estado_only id uid b c (j : string)
    (r r' : ServiceRequest.t) :
  c !! j = Some r -> (put_id_completar id uid b c).1 !! j = Some r' ->
  r' = ServiceRequest.set_estado (ServiceRequest.estado r') r.
Proof.
  intros Hr. unfold put_id_completar. destruct (findOne id _ c); simpl.
  - intros Hr'. destruct (lookup_save _ _ _ _ _ _ Hr Hr') as [-> | ->]; by destruct r.
  - intros Hr'. assert (r' = r) as -> by congruence. by destruct r.
Qed.

Lemma put_id_reporte_changes_nothing id uid b c :
  (put_id_reporte id uid b c).1 = c.
Proof. unfold put_id_reporte. by destruct (findOne id _ c). Qed.

(** C9: through any run of requests served by the service-request router,
    every stored request stays stored with the client and the nurse it was
    created with; and accept/reject, pay, complete and report each leave a
    stored request as it was but for what they store: the state; the paid
    flag; the state; nothing. *)
Theorem parties_never_change (reqs : list request) (db : Db) (id : string)
    (r : ServiceRequest.t) :
  serviceRequests db !! id = Some r ->
  (exists r',
     serviceRequests (serve_all reqs db) !! id = Some r'
     /\ ServiceRequest.user_id r' = ServiceRequest.user_id r
     /\ ServiceRequest.nurse_id r' = ServiceRequest.nurse_id r)
  /\ (forall target uid b r',
        ((put_id target uid b (serviceRequests db)).1 !! id = Some r' ->
         r' = ServiceRequest.set_estado (ServiceRequest.estado r') r)
        /\ ((put_id_pagar target uid (serviceRequests db)).1 !! id = Some r' ->
            r' = ServiceRequest.set_pago_realizado (ServiceRequest.pago_realizado r') r)
        /\ ((put_id_completar target uid b (serviceRequests db)).1 !! id = Some r' ->
            r' = ServiceRequest.set_estado (ServiceRequest.estado r') r)
        /\ ((put_id_reporte target uid b (serviceRequests db)).1 !! id = Some r' ->
            r' = r)).
Proof.
  intros Hr. split.
  - destruct (serve_all_keeps_parties reqs db id r Hr) as (r' & Hr' & Hp).
    exists r'. unfold parties in Hp. injection Hp as Hu Hn. done.
  - intros target uid b r'. split_and!.
    + by apply put_id_changes_estado_only.
    + by apply put_id_pagar_changes_pago_realizado_only.
    + by apply put_id_completar_changes_estado_only.
    + rewrite put_id_reporte_changes_nothing. congruence.
Qed.

(** A run of C9: accept, pay, complete and report on one request. *)
Lemma parties_never_change_run :
  let r0 := newRequest "u1" (Body.creation "n1" ["p1"] 50) in
  let db0 := mkDb {[ "r1" := r0 ]} ∅ [] [] ∅ [] in
  let reqs :=
    [ mkRequest PUT ["r1"] "n1" (Body.of_estado "aceptada") "o1" 1;
      mkRequest PUT ["r1"; "pagar"] "u1" Body.empty "o2" 2;
      mkRequest PUT ["r1"; "completar"] "n1" (Body.of_documentacion "stable") "o3" 3;
      mkRequest PUT ["r1"; "reporte"] "n1" Body.empty "o4" 4 ] in
  exists r',
    serviceRequests (serve_all reqs db0) !! "r1" = Some r'
    /\ ServiceRequest.user_id r' = "u1"
    /\ ServiceRequest.nurse_id r' = Some "n1".
Proof.
  intros r0 db0 reqs.
  exact (proj1 (parties_never_change reqs db0 "r1" r0 (lookup_singleton_eq _ _))).
Defined.

(** ** Login *)










(** Runs of the login with strings: the right pair, a wrong password that
    differs in letter case only, an empty one, and an empty body. *)
Example login_runs :
  let ana := User.mk "u1" "Ana" "ana" "Secreta1" None "No" in
  status (users_login example_hmac (Body.credentials "ana" "Secreta1") 0 [ana]) = 200
  /\ status (users_login example_hmac (Body.credentials "ana" "secreta1") 0 [ana]) = 401
  /\ status (users_login example_hmac (Body.credentials "ana" "") 0 [ana]) = 401
  /\ status (users_login example_hmac Body.empty 0 [ana]) = 401.
Proof.
  split_and!; vm_compute; reflexivity.
Qed.

(** ** The lifecycle as the router implements it *)

Lemma router_step_refl (req : request) (c : gmap string ServiceRequest.t) :
  router_step req c c.
Proof. intros id. destruct (c !! id); [by left | done]. Qed.

Lemma router_step_update (req : request) (c : gmap string ServiceRequest.t)
    (id : string) (r0 r0' : ServiceRequest.t) :
  c !! id = Some r0 -> (r0' = r0 \/ transition r0 r0') ->
  router_step req c (<[id := r0']> c).
Proof.
  intros Hr0 Hstep j. destruct (decide (id = j)) as [<-|Hne].
  - rewrite Hr0, lookup_insert_eq. done.
  - rewrite lookup_insert_ne by done. destruct (c !! j); [by left | done].
Qed.

Lemma router_step_post_root (req : request) (c : gmap string ServiceRequest.t) :
  router_step req c (post_root (req_oid req) (req_userId req) (req_body req) c).1.
Proof.
  unfold post_root.
  destruct (castable (Body.fecha (req_body req))) eqn:Hf; simpl; [|apply router_step_refl].
  destruct (castable (Body.tarifa (req_body req))) eqn:Ht; simpl; [|apply router_step_refl].
  unfold insert_request. destruct (c !! req_oid req) eqn:Hoid; simpl.
  - apply router_step_refl.
  - intros j. destruct (decide (req_oid req = j)) as [<-|Hne].
    + rewrite Hoid, lookup_insert_eq. done.
    + rewrite lookup_insert_ne by done. destruct (c !! j); [by left | done].
Qed.

Lemma router_step_findOneAndUpdate (req : request) (id : string) cond update
    (c : gmap string ServiceRequest.t) :
  (forall r, transition r (update r)) ->
  router_step req c (findOneAndUpdate id cond update c).1.
Proof.
  intros Hupd. unfold findOneAndUpdate.
  destruct (c !! id) as [r|] eqn:Hr; [|apply router_step_refl].
  destruct (cond r); [|apply router_step_refl].
  simpl. apply (router_step_update req c id r); [done | right; apply Hupd].
Qed.

Lemma router_step_put_id req id uid b c : router_step req c (put_id id uid b c).1.
Proof.
  unfold put_id. destruct (valid_estado (Body.estado b)) eqn:Hv; simpl;
    [|apply router_step_refl].
  pose proof (router_step_findOneAndUpdate req id
    (fun r => bool_decide (ServiceRequest.nurse_id r = Some uid))
    (ServiceRequest.set_estado (default "" (Body.estado b))) c) as H.
  destruct (findOneAndUpdate _ _ _ c) as [c' [r|]]; simpl in *; apply H;
    intros r'; apply accept_or_reject;
    destruct (Body.estado b) as [e|]; simpl in *; try discriminate;
    by apply bool_decide_eq_true in Hv.
Qed.

Lemma router_step_put_id_notify req id uid b c :
  router_step req c (put_id_notify id uid b c).1.
Proof.
  unfold put_id_notify. destruct (valid_estado (Body.estado b)) eqn:Hv; simpl;
    [|apply router_step_refl].
  pose proof (router_step_findOneAndUpdate req id
    (fun r => bool_decide (ServiceRequest.nurse_id r = Some uid))
    (ServiceRequest.set_estado (default "" (Body.estado b))) c) as H.
  assert (Ht : forall r', transition r'
                 (ServiceRequest.set_estado (default "" (Body.estado b)) r')).
  { intros r'. apply accept_or_reject.
    destruct (Body.estado b) as [e|]; simpl in *; try discriminate.
    by apply bool_decide_eq_true in Hv. }
  destruct (findOneAndUpdate _ _ _ c) as [c' [r|]]; simpl in *; [|by apply H].
  case_bool_decide; by apply H.
Qed.

Lemma router_step_put_id_pagar req id uid c :
  router_step req c (put_id_pagar id uid c).1.
Proof.
  unfold put_id_pagar. destruct (findOne id _ c) as [r|] eqn:Hf; simpl;
    [|apply router_step_refl].
  apply findOne_Some in Hf as [Hr Hc]. apply andb_true_iff in Hc as [_ Hp].
  apply bool_decide_eq_true in Hp.
  rewrite (save_found _ _ _ _ Hr).
  apply (router_step_update req c id r); [done | right; by apply pay].
Qed.

Lemma router_step_put_id_completar req id uid b c :
  router_step req c (put_id_completar id uid b c).1.
Proof.
  unfold put_id_completar. destruct (findOne id _ c) as [r|] eqn:Hf; simpl;
    [|apply router_step_refl].
  apply findOne_Some in Hf as [Hr Hc]. apply andb_true_iff in Hc as [_ He].
  apply bool_decide_eq_true in He.
  rewrite (save_found _ _ _ _ Hr).
  apply (router_step_update req c id r); [done | right; by apply complete].
Qed.

Lemma router_step_put_id_reporte req id uid b c :
  router_step req c (put_id_reporte id uid b c).1.
Proof. rewrite put_id_reporte_changes_nothing. apply router_step_refl. Qed.

Lemma steps_reads h : steps (reads h).
Proof. intros params req db db' answer [= <- _]. apply router_step_refl. Qed.

Lemma steps_writes h :
  (forall params req db, router_step req (serviceRequests db) (h params req db).1) ->
  steps (writes h).
Proof. intros Hh params req db db' answer [= <- _]. simpl. apply Hh. Qed.

Lemma serviceRequests_router_steps :
  Forall (fun layer => steps (route_handler layer)) serviceRequests_router.
Proof.
  unfold serviceRequests_router.
  repeat (apply Forall_cons; split);
    [..| by apply Forall_nil];
    simpl; first [ apply steps_reads | apply steps_writes; intros params req db ].
  - apply router_step_post_root.
  - apply router_step_refl.
  - apply router_step_put_id.
  - apply router_step_put_id_pagar.
  - apply router_step_put_id_completar.
  - apply router_step_put_id_reporte.
  - apply router_step_put_id_notify.
Qed.

Lemma dispatch_steps (stack : list route) (req : request) (db db' : Db) answer :
  Forall (fun layer => steps (route_handler layer)) stack ->
  dispatch stack req db = Some (db', answer) ->
  router_step req (serviceRequests db) (serviceRequests db').
Proof.
  induction 1 as [|layer rest Hlayer _ IH]; simpl; [discriminate|].
  case_bool_decide; [|exact IH].
  destruct (match_path (route_path layer) (req_path req)) as [params|]; [|exact IH].
  destruct (route_handler layer params req db) as [[db1 answer1]|] eqn:Hh; [|exact IH].
  intros [= <- <-]. by eapply Hlayer.
Qed.

Lemma serve_router_step (req : request) (db : Db) :
  router_step req (serviceRequests db) (serviceRequests (serve req db)).
Proof.
  unfold serve.
  destruct (dispatch serviceRequests_router req db) as [[db' answer]|] eqn:Hd.
  - eapply dispatch_steps; [apply serviceRequests_router_steps | exact Hd].
  - apply router_step_refl.
Qed.

(** A property of requests that every transition keeps is kept by every
    run of requests through the router. *)
Lemma serve_all_keeps (Q : ServiceRequest.t -> Prop) :
  (forall r r', Q r -> transition r r' -> Q r') ->
  forall (reqs : list request) (db : Db) (id : string) (r : ServiceRequest.t),
    serviceRequests db !! id = Some r -> Q r ->
    exists r', serviceRequests (serve_all reqs db) !! id = Some r' /\ Q r'.
Proof.
  intros HQ reqs. induction reqs as [|req reqs IH]; intros db id r Hr Hq; simpl.
  - by exists r.
  - pose proof (serve_router_step req db id) as Hstep. rewrite Hr in Hstep.
    destruct (serviceRequests (serve req db) !! id) as [r1|] eqn:Hr1; [|done].
    apply (IH _ id r1 Hr1).
    destruct Hstep as [-> | Ht]; [done | by eapply HQ].
Qed.

Lemma accepted_or_rejected_cases (e : string) :
  e ∈ ["aceptada"; "rechazada"] <-> e = "aceptada" \/ e = "rechazada".
Proof.
  rewrite !elem_of_cons, elem_of_nil. tauto.
Qed.

Lemma accepted_or_rejected_not_pendiente (e : string) :
  e ∈ ["aceptada"; "rechazada"] -> e <> "pendiente" /\ e <> "completado".
Proof.
  intros [-> | ->]%accepted_or_rejected_cases; split; discriminate.
Qed.

Lemma newRequest_consistent (uid : string) (b : Body.t) : consistent (newRequest uid b).
Proof. unfold consistent. simpl. apply list_elem_of_here. Qed.

Lemma transition_consistent (r r' : ServiceRequest.t) :
  consistent r -> transition r r' -> consistent r'.
Proof.
  intros Hin Ht. unfold consistent.
  destruct Ht as [e He | Hp | He]; simpl.
  - apply accepted_or_rejected_cases in He as [-> | ->].
    + apply list_elem_of_further, list_elem_of_here.
    + do 2 apply list_elem_of_further. apply list_elem_of_here.
  - done.
  - do 3 apply list_elem_of_further. apply list_elem_of_here.
Qed.

(** X1: one request changes a stored service request by at most one of
    three transitions (accept or reject from any state; pay when unpaid;
    complete from pending) and never removes it; a request that appears is
    the one just created from a body that passed validation: pending,
    unpaid, in the caller's name, with no patient on it. *)
Theorem every_change_is_a_transition (req : request) (db : Db) (id : string) :
  (forall r,
     serviceRequests db !! id = Some r ->
     exists r', serviceRequests (serve req db) !! id = Some r'
                /\ (r' = r \/ transition r r'))
  /\ (serviceRequests db !! id = None ->
      forall r',
        serviceRequests (serve req db) !! id = Some r' ->
        id = req_oid req
        /\ r' = newRequest (req_userId req) (req_body req)
        /\ castable (Body.fecha (req_body req)) = true
        /\ castable (Body.tarifa (req_body req)) = true
        /\ ServiceRequest.estado r' = "pendiente"
        /\ ServiceRequest.pago_realizado r' = false
        /\ ServiceRequest.user_id r' = req_userId req
        /\ ServiceRequest.patient_id r' = None).
Proof.
  pose proof (serve_router_step req db id) as Hstep. split.
  - intros r Hr. rewrite Hr in Hstep.
    destruct (serviceRequests (serve req db) !! id) as [r'|]; [|done].
    by exists r'.
  - intros Hnone r' Hr'. rewrite Hnone, Hr' in Hstep.
    destruct Hstep as (-> & -> & Hf & Ht). done.
Qed.

(** X2: once a request is accepted or rejected, no run of requests
    completes it: it stays accepted or rejected, and only its state and
    its paid flag can differ from what they were. *)
Theorem accepted_or_rejected_is_never_completed (reqs : list request) (db : Db)
    (id : string) (r : ServiceRequest.t) :
  serviceRequests db !! id = Some r ->
  ServiceRequest.estado r ∈ ["aceptada"; "rechazada"] ->
  exists r',
    serviceRequests (serve_all reqs db) !! id = Some r'
    /\ ServiceRequest.estado r' ∈ ["aceptada"; "rechazada"]
    /\ r' = ServiceRequest.set_pago_realizado (ServiceRequest.pago_realizado r')
              (ServiceRequest.set_estado (ServiceRequest.estado r') r).
Proof.
  intros Hr He.
  set (Q := fun r' : ServiceRequest.t =>
              ServiceRequest.estado r' ∈ ["aceptada"; "rechazada"]
              /\ r' = ServiceRequest.set_pago_realizado
                        (ServiceRequest.pago_realizado r')
                        (ServiceRequest.set_estado (ServiceRequest.estado r') r)).
  assert (HQ : forall r1 r2, Q r1 -> transition r1 r2 -> Q r2).
  { intros r1 r2 [He1 Heq] Ht. unfold Q.
    destruct Ht as [e Hin | Hp | Hpend]; simpl.
    - split; [done|]. rewrite Heq. done.
    - split; [done|]. rewrite Heq. done.
    - destruct (accepted_or_rejected_not_pendiente _ He1) as [Hne _]. done. }
  apply (serve_all_keeps Q HQ reqs db id r Hr).
  split; [done|]. by destruct r.
Qed.

(** A run of X2: accepted, then complete, report and pay are tried. *)
Lemma accepted_or_rejected_is_never_completed_run :
  let r0 := ServiceRequest.set_estado "aceptada"
              (newRequest "u1" (Body.creation "n1" ["p1"] 50)) in
  let db0 := mkDb {[ "r1" := r0 ]} ∅ [] [] ∅ [] in
  let reqs :=
    [ mkRequest PUT ["r1"; "completar"] "n1" (Body.of_documentacion "stable") "o1" 1;
      mkRequest PUT ["r1"; "reporte"] "n1" Body.empty "o2" 2;
      mkRequest PUT ["r1"; "pagar"] "u1" Body.empty "o3" 3 ] in
  exists r',
    serviceRequests (serve_all reqs db0) !! "r1" = Some r'
    /\ ServiceRequest.estado r' ∈ ["aceptada"; "rechazada"]
    /\ r' = ServiceRequest.set_pago_realizado (ServiceRequest.pago_realizado r')
              (ServiceRequest.set_estado (ServiceRequest.estado r') r0).
Proof.
  intros r0 db0 reqs.
  apply (accepted_or_rejected_is_never_completed reqs db0 "r1" r0).
  - apply lookup_singleton_eq.
  - apply list_elem_of_here.
Defined.

(** X3: nothing is undone by any run of requests: a paid request stays
    paid, and a request that has left the pending state never returns to
    it. *)
Theorem flags_are_never_cleared (reqs : list request) (db : Db)
    (id : string) (r : ServiceRequest.t) :
  serviceRequests db !! id = Some r ->
  exists r',
    serviceRequests (serve_all reqs db) !! id = Some r'
    /\ (ServiceRequest.pago_realizado r = true -> ServiceRequest.pago_realizado r' = true)
    /\ (ServiceRequest.estado r <> "pendiente" -> ServiceRequest.estado r' <> "pendiente").
Proof.
  intros Hr.
  set (Q := fun r' : ServiceRequest.t =>
              (ServiceRequest.pago_realizado r = true -> ServiceRequest.pago_realizado r' = true)
              /\ (ServiceRequest.estado r <> "pendiente" ->
                  ServiceRequest.estado r' <> "pendiente")).
  assert (HQ : forall r1 r2, Q r1 -> transition r1 r2 -> Q r2).
  { intros r1 r2 (Hp & He) Ht. unfold Q.
    destruct Ht as [e Hin | Hp1 | Hpend]; simpl; split_and!; try done.
    intros _ ->. by destruct (accepted_or_rejected_not_pendiente _ Hin). }
  apply (serve_all_keeps Q HQ reqs db id r Hr). done.
Qed.

(** A run of X3: a paid, completed request is accepted again. *)
Lemma flags_are_never_cleared_run :
  let r0 := ServiceRequest.set_pago_realizado true
              (ServiceRequest.set_estado "completado"
                 (newRequest "u1" (Body.creation "n1" ["p1"] 50))) in
  let db0 := mkDb {[ "r1" := r0 ]} ∅ [] [] ∅ [] in
  let reqs := [ mkRequest PUT ["r1"] "n1" (Body.of_estado "aceptada") "o1" 1 ] in
  exists r',
    serviceRequests (serve_all reqs db0) !! "r1" = Some r'
    /\ (ServiceRequest.pago_realizado r0 = true -> ServiceRequest.pago_realizado r' = true)
    /\ (ServiceRequest.estado r0 <> "pendiente" -> ServiceRequest.estado r' <> "pendiente").
Proof.
  intros r0 db0 reqs.
  apply (flags_are_never_cleared reqs db0 "r1" r0).
  apply lookup_singleton_eq.
Defined.

(** X4: if the state of every stored request is one of pending, accepted,
    rejected and completed, so is the state of every request stored after
    any run of requests, those created on the way included. *)
Theorem consistent_requests_stay_consistent (reqs : list request) (db : Db) :
  (forall id r, serviceRequests db !! id = Some r -> consistent r) ->
  forall id r, serviceRequests (serve_all reqs db) !! id = Some r -> consistent r.
Proof.
  revert db. induction reqs as [|req reqs IH]; intros db Hall; simpl; [done|].
  apply IH. intros id r' Hr'.
  pose proof (serve_router_step req db id) as Hstep. rewrite Hr' in Hstep.
  destruct (serviceRequests db !! id) as [r|] eqn:Hr.
  - destruct Hstep as [-> | Ht]; [by eapply Hall|].
    eapply transition_consistent; [by eapply Hall | done].
  - destruct Hstep as (_ & -> & _). apply newRequest_consistent.
Qed.

(** A run of X4: from the empty collection, create, complete and report. *)
Lemma consistent_requests_stay_consistent_run :
  let db0 := mkDb ∅ ∅ [] [] ∅ [] in
  let reqs :=
    [ mkRequest POST [] "u1" (Body.creation "n1" ["p1"] 50) "r1" 1;
      mkRequest PUT ["r1"; "completar"] "n1" (Body.of_documentacion "stable") "o2" 2;
      mkRequest PUT ["r1"; "reporte"] "n1" Body.empty "o3" 3 ] in
  exists r,
    serviceRequests (serve_all reqs db0) !! "r1" = Some r
    /\ ServiceRequest.estado r = "completado"
    /\ consistent r.
Proof.
  intros db0 reqs. eexists. split; [vm_compute; reflexivity|]. split; [reflexivity|].
  apply (consistent_requests_stay_consistent reqs db0) with (id := "r1").
  - intros id r Hr. simpl in Hr. rewrite lookup_empty in Hr. discriminate.
  - vm_compute. reflexivity.
Defined.

(** ** Report, and reading the payment state back *)

Lemma put_id_reporte_found (id uid : string) (b : Body.t)
    (c : gmap string ServiceRequest.t) r :
  c !! id = Some r -> ServiceRequest.nurse_id r = Some uid ->
  ServiceRequest.estado r = "completado" ->
  put_id_reporte id uid b c =
    (c, mkResponse 200 (Report (Body.observaciones b) (Body.recomendaciones b))).
Proof.
  intros Hr Hn He. unfold put_id_reporte.
  destruct (findOne id _ c) as [r'|] eqn:Hf; [done|].
  exfalso. rewrite findOne_None in Hf. specialize (Hf r Hr). simpl in Hf.
  rewrite !bool_decide_eq_true_2 in Hf by done. discriminate.
Qed.

Lemma put_id_reporte_cases (id uid : string) (c : gmap string ServiceRequest.t) :
  (exists r, c !! id = Some r /\ ServiceRequest.nurse_id r = Some uid
             /\ ServiceRequest.estado r = "completado")
  \/ (forall r, c !! id = Some r ->
        ~ (ServiceRequest.nurse_id r = Some uid /\ ServiceRequest.estado r = "completado")).
Proof.
  destruct (c !! id) as [r|] eqn:Hr; [|right; intros r0 [=]].
  destruct (decide (ServiceRequest.nurse_id r = Some uid
                    /\ ServiceRequest.estado r = "completado")) as [[Hn He]|Hno].
  - left. by exists r.
  - right. intros r0 [= <-]. done.
Qed.

(** X5: the report route succeeds exactly on a completed request assigned
    to the caller and answers 403 otherwise. A success sends the two
    submitted report fields back, a missing one included, and stores
    nothing: whatever the outcome, the collection is as it was, so a
    report cannot be read back and a second one meets the same request. *)
Theorem put_id_reporte_stores_nothing (id uid : string) (b b' : Body.t)
    (c : gmap string ServiceRequest.t) :
  (status (put_id_reporte id uid b c).2 = 200 <->
     exists r, c !! id = Some r /\ ServiceRequest.nurse_id r = Some uid
               /\ ServiceRequest.estado r = "completado")
  /\ (status (put_id_reporte id uid b c).2 <> 200 ->
      (put_id_reporte id uid b c).2 = mkResponse 403 Envelope)
  /\ (status (put_id_reporte id uid b c).2 = 200 ->
      data (put_id_reporte id uid b c).2
      = Report (Body.observaciones b) (Body.recomendaciones b))
  /\ (put_id_reporte id uid b c).1 = c
  /\ put_id_reporte id uid b' (put_id_reporte id uid b c).1 = put_id_reporte id uid b' c.
Proof.
  destruct (put_id_reporte_cases id uid c) as [(r & Hr & Hn & He) | Hno].
  - rewrite (put_id_reporte_found id uid b c r Hr Hn He). simpl. split_and!; try done.
    split; [|done]. intros _. by exists r.
  - rewrite (put_id_reporte_refused id uid b c Hno). simpl. split_and!; try done.
    split; [discriminate|]. intros (r & Hr & Hn & He). exfalso. by apply (Hno r Hr).
Qed.

Lemma dispatch_put_id_completar (id : string) (req : request) (db : Db) :
  id <> "" -> req_method req = PUT -> req_path req = [id; "completar"] ->
  dispatch serviceRequests_router req db =
    Some (set_serviceRequests db
            (put_id_completar id (req_userId req) (req_body req) (serviceRequests db)).1,
          (put_id_completar id (req_userId req) (req_body req) (serviceRequests db)).2).
Proof.
  intros Hid Hm Hp. unfold serviceRequests_router. simpl. rewrite Hm, Hp. simpl.
  rewrite (bool_decide_eq_false_2 _ Hid). done.
Qed.

(** X6: a request just created can be completed at once by the nurse it
    names, with no accept and no payment in between: after the two
    requests it is stored as completed, still unpaid, and otherwise as it
    was created, whatever notes came with the completion. *)
Theorem fresh_request_can_be_completed_at_once (db : Db) (oid client nurse oid' : string)
    (b notes : Body.t) (t t' : Z) :
  oid <> "" ->
  serviceRequests db !! oid = None ->
  castable (Body.fecha b) = true -> castable (Body.tarifa b) = true ->
  Body.nurse_id b = Some nurse ->
  let after_create := serve (mkRequest POST [] client b oid t) db in
  let after_complete :=
    serve (mkRequest PUT [oid; "completar"] nurse notes oid' t') after_create in
  serviceRequests after_create !! oid = Some (newRequest client b)
  /\ serviceRequests after_complete !! oid
     = Some (ServiceRequest.set_estado "completado" (newRequest client b))
  /\ ServiceRequest.pago_realizado
       (ServiceRequest.set_estado "completado" (newRequest client b)) = false.
Proof.
  intros Hoid Hfresh Hfecha Htarifa Hnurse after_create after_complete.
  assert (Hcreated : serviceRequests after_create !! oid = Some (newRequest client b)).
  { unfold after_create, serve.
    rewrite (dispatch_post_root (mkRequest POST [] client b oid t) db eq_refl eq_refl).
    simpl.
    unfold post_root, insert_request. rewrite Hfecha, Htarifa, Hfresh. simpl.
    apply lookup_insert_eq. }
  split; [exact Hcreated|].
  unfold after_complete, serve. clearbody after_create.
  rewrite (dispatch_put_id_completar oid
             (mkRequest PUT [oid; "completar"] nurse notes oid' t') after_create
             Hoid eq_refl eq_refl).
  simpl.
  rewrite (put_id_completar_found oid nurse notes _ _ Hcreated Hnurse eq_refl). simpl.
  split; [apply lookup_insert_eq | done].
Qed.

(** A run of X6: client u1, nurse n1, request r1. *)
Lemma fresh_request_can_be_completed_at_once_run :
  let db0 := mkDb ∅ ∅ [] [] ∅ [] in
  let b := Body.creation "n1" ["p1"] 50 in
  let after_create := serve (mkRequest POST [] "u1" b "r1" 1) db0 in
  let after_complete :=
    serve (mkRequest PUT ["r1"; "completar"] "n1" (Body.of_documentacion "stable") "o2" 2)
          after_create in
  serviceRequests after_complete !! "r1"
  = Some (ServiceRequest.set_estado "completado" (newRequest "u1" b)).
Proof.
  intros db0 b after_create after_complete.
  destruct (fresh_request_can_be_completed_at_once db0 "r1" "u1" "n1" "o2" b
              (Body.of_documentacion "stable") 1 2)
    as (_ & Hr & _).
  - discriminate.
  - apply lookup_empty.
  - reflexivity.
  - reflexivity.
  - reflexivity.
  - exact Hr.
Defined.

(** X7: the payment-state route shows the nurse the paid flag and the
    state as they are stored, and never a released flag: after the
    client's payment the paid flag reads true, and after the nurse's
    completion the state reads completed, still with no released flag. *)
Theorem estado_pago_reads_back (id client nurse : string) (notes : Body.t)
    (c : gmap string ServiceRequest.t) (r : ServiceRequest.t) :
  c !! id = Some r ->
  ServiceRequest.user_id r = client ->
  ServiceRequest.nurse_id r = Some nurse ->
  get_id_estado_pago id nurse c =
    mkResponse 200 (PaymentState (ServiceRequest.pago_realizado r) None
                                 (ServiceRequest.estado r))
  /\ (ServiceRequest.pago_realizado r = false ->
      get_id_estado_pago id nurse (put_id_pagar id client c).1 =
        mkResponse 200 (PaymentState true None (ServiceRequest.estado r)))
  /\ (ServiceRequest.estado r = "pendiente" ->
      get_id_estado_pago id nurse (put_id_completar id nurse notes c).1 =
        mkResponse 200 (PaymentState (ServiceRequest.pago_realizado r) None "completado"))
  /\ (forall id' uid c' realizado liberado state,
        data (get_id_estado_pago id' uid c') = PaymentState realizado liberado state ->
        liberado = None).
Proof.
  intros Hr Hu Hn.
  assert (Hread : forall c' r', c' !! id = Some r' -> ServiceRequest.nurse_id r' = Some nurse ->
            get_id_estado_pago id nurse c' =
              mkResponse 200 (PaymentState (ServiceRequest.pago_realizado r') None
                                (ServiceRequest.estado r'))).
  { intros c' r' Hr' Hn'. unfold get_id_estado_pago, findOne.
    rewrite Hr', bool_decide_eq_true_2 by done. done. }
  split_and!.
  - by apply Hread.
  - intros Hp. rewrite (put_id_pagar_found id client c r Hr Hu Hp). simpl.
    rewrite (Hread _ _ (lookup_insert_eq _ _ _)); done.
  - intros He. rewrite (put_id_completar_found id nurse notes c r Hr Hn He). simpl.
    rewrite (Hread _ _ (lookup_insert_eq _ _ _)); done.
  - intros id' uid c' realizado liberado state. unfold get_id_estado_pago.
    destruct (findOne id' _ c'); simpl; [|discriminate]. by intros [= _ <- _].
Qed.

(** A run of X7: a pending request of client u1 and nurse n1. *)
Lemma estado_pago_reads_back_run :
  let r0 := newRequest "u1" (Body.creation "n1" ["p1"] 50) in
  let c0 : gmap string ServiceRequest.t := {[ "r1" := r0 ]} in
  get_id_estado_pago "r1" "n1" (put_id_pagar "r1" "u1" c0).1 =
    mkResponse 200 (PaymentState true None "pendiente")
  /\ get_id_estado_pago "r1" "n1" (put_id_completar "r1" "n1" Body.empty c0).1 =
     mkResponse 200 (PaymentState false None "completado").
Proof.
  intros r0 c0.
  destruct (estado_pago_reads_back "r1" "u1" "n1" Body.empty c0 r0)
    as (_ & Hpaid & Hdone & _).
  - apply lookup_singleton_eq.
  - reflexivity.
  - reflexivity.
  - split; [apply Hpaid | apply Hdone]; reflexivity.
Defined.

(** ** Which handler answers *)

(** X8: the second handlers registered for [POST /], [GET /] and
    [PUT /:id] (the create that was to check the patients, the
    pending-only list and the notifying accept/reject) answer no request:
    the router answers every request as it would without them. And the
    routes are matched without regard to letter case or to a trailing
    slash: [PUT /:id/PAGAR/] is a payment. *)
Theorem second_handlers_are_never_reached (req : request) (db : Db) :
  dispatch serviceRequests_router req db = dispatch reached_layers req db
  /\ length serviceRequests_router = 11%nat
  /\ length reached_layers = 8%nat
  /\ (forall id action,
        id <> "" -> lower action = "pagar" -> req_method req = PUT ->
        req_path req = [id; action] \/ req_path req = [id; action; ""] ->
        dispatch serviceRequests_router req db =
          Some (set_serviceRequests db (put_id_pagar id (req_userId req) (serviceRequests db)).1,
                (put_id_pagar id (req_userId req) (serviceRequests db)).2)).
Proof.
  split_and!; [|reflexivity|reflexivity|].
  - destruct req as [m path uid b oid now].
    unfold reached_layers, serviceRequests_router. simpl.
    destruct m; simpl; try reflexivity.
    + destruct path as [|x [|y rest]]; simpl; try reflexivity.
      case_bool_decide; reflexivity.
    + destruct path as [|x [|y rest]]; simpl; try reflexivity.
      case_bool_decide; reflexivity.
    + destruct path as [|x rest]; simpl; [reflexivity|].
      case_bool_decide; simpl; [reflexivity|].
      destruct rest as [|y [|z rest]]; simpl; try reflexivity.
      case_bool_decide; reflexivity.
  - intros id action Hid Hact Hm Hp.
    assert (Hne : action <> "") by (intros ->; discriminate).
    unfold serviceRequests_router. simpl. rewrite Hm.
    destruct Hp as [-> | ->]; simpl;
      rewrite (bool_decide_eq_false_2 _ Hid), ?(bool_decide_eq_false_2 _ Hne),
        Hact; reflexivity.
Qed.

(** ** Reading requests *)

Lemma elem_of_requests_of_nurse (uid : string) cond
    (c : gmap string ServiceRequest.t) (id : string) (r : ServiceRequest.t) :
  (id, r) ∈ requests_of_nurse uid cond c <->
  c !! id = Some r /\ ServiceRequest.nurse_id r = Some uid /\ cond r = true.
Proof.
  unfold requests_of_nurse. rewrite list_elem_of_filter, elem_of_map_to_list. simpl.
  tauto.
Qed.

(** X9: the list of her requests that a nurse asks for on [GET /] is
    answered only as long as no stored request names her, and is then
    empty; once one does, whatever its state, the answer is 500: the
    route never shows a request. *)
Theorem get_root_never_shows_a_request (uid : string)
    (c : gmap string ServiceRequest.t) :
  (status (get_root uid c) = 200 <->
     forall id r, c !! id = Some r -> ServiceRequest.nurse_id r <> Some uid)
  /\ (status (get_root uid c) = 200 -> get_root uid c = mkResponse 200 (RequestList []))
  /\ (status (get_root uid c) <> 200 -> get_root uid c = mkResponse 500 Envelope)
  /\ (forall id r,
        c !! id = Some r -> ServiceRequest.nurse_id r = Some uid ->
        get_root uid c = mkResponse 500 Envelope).
Proof.
  assert (Hnone : requests_of_nurse uid (fun _ => true) c = [] <->
                  forall id r, c !! id = Some r -> ServiceRequest.nurse_id r <> Some uid).
  { split.
    - intros Hnil id r Hr Hn.
      assert (Hin : (id, r) ∈ requests_of_nurse uid (fun _ => true) c)
        by by apply elem_of_requests_of_nurse.
      rewrite Hnil in Hin. by apply elem_of_nil in Hin.
    - intros Hall. destruct (requests_of_nurse uid (fun _ => true) c) as [|[id r] l] eqn:Hl;
        [done|].
      assert (Hin : (id, r) ∈ requests_of_nurse uid (fun _ => true) c)
        by (rewrite Hl; apply list_elem_of_here).
      apply elem_of_requests_of_nurse in Hin as (Hr & Hn & _).
      by destruct (Hall id r Hr). }
  unfold get_root.
  destruct (requests_of_nurse uid (fun _ => true) c) as [|kr l] eqn:Hl; simpl.
  - split_and!; try done.
    + split; [|done]. intros _. by apply Hnone.
    + intros id r Hr Hn. exfalso. by apply (proj1 Hnone eq_refl id r Hr).
  - split_and!; try done.
    split; [discriminate|]. intros Hall. by apply Hnone in Hall.
Qed.

(** X10: the client's read of a request never answers 200: it answers 500
    exactly when the request is hers and in the accepted state, the one
    case in which it was to show the details, and 404 otherwise. *)
Theorem get_id_never_succeeds (id uid : string) (c : gmap string ServiceRequest.t) :
  (status (get_id id uid c) = 500 <->
     exists r, c !! id = Some r /\ ServiceRequest.user_id r = uid
               /\ ServiceRequest.estado r = "aceptada")
  /\ (status (get_id id uid c) <> 500 -> get_id id uid c = mkResponse 404 Envelope)
  /\ status (get_id id uid c) <> 200
  /\ data (get_id id uid c) = Envelope.
Proof.
  unfold get_id.
  destruct (findOne id _ c) as [r|] eqn:Hf; simpl.
  - apply findOne_Some in Hf as [Hr Hc]. apply andb_true_iff in Hc as [Hu He].
    apply bool_decide_eq_true in Hu, He. split_and!; try done.
    split; [|done]. intros _. by exists r.
  - rewrite findOne_None in Hf. split_and!; try done.
    split; [discriminate|]. intros (r0 & Hr0 & Hu & He).
    specialize (Hf r0 Hr0). simpl in Hf.
    rewrite !bool_decide_eq_true_2 in Hf by done. discriminate.
Qed.

(** ** Messages *)

Lemma involved_true (uid : string) (r : ServiceRequest.t) :
  involved uid r = true <->
  ServiceRequest.user_id r = uid \/ ServiceRequest.nurse_id r = Some uid.
Proof.
  unfold involved. rewrite orb_true_iff, !bool_decide_eq_true. done.
Qed.

Lemma by_timestamp_total : Total by_timestamp.
Proof. intros a b. unfold by_timestamp. lia. Qed.

(** No stored message holds a request identifier. *)
Lemma find_by_service_request_id (sid : string) (ms : list Message.t) :
  filter (fun m => Message.service_request_id m = Some sid) ms = [].
Proof.
  induction ms as [|m ms IH]; [done|].
  rewrite filter_cons. destruct (decide _) as [Hm|_]; [discriminate Hm | exact IH].
Qed.

(** X11: a message is stored exactly when the request it names exists and
    the sender is its client or its nurse; otherwise the answer is 403 and
    nothing is stored. The stored message is appended after the earlier
    ones and holds the submitted text and the time; who sent it, to whom
    and within which request is not stored. *)
Theorem post_message_only_by_a_party (uid : string) (b : Body.t) (now : Z)
    (c : gmap string ServiceRequest.t) (ms : list Message.t) :
  (status (post_message uid b now c ms).2 = 201 <->
     exists sid r, Body.service_request_id b = Some sid /\ c !! sid = Some r
                   /\ (ServiceRequest.user_id r = uid
                       \/ ServiceRequest.nurse_id r = Some uid))
  /\ (status (post_message uid b now c ms).2 <> 201 ->
      post_message uid b now c ms = (ms, mkResponse 403 Envelope))
  /\ (status (post_message uid b now c ms).2 = 201 ->
      exists m,
        post_message uid b now c ms = ((ms ++ [m])%list, mkResponse 201 (MessageData m))
        /\ m = Message.mk None None (Body.content b) now
        /\ Message.content m = Body.content b
        /\ Message.timestamp m = now
        /\ Message.from m = None
        /\ Message.to m = None
        /\ Message.service_request_id m = None)
  /\ (forall uid' b',
        Body.service_request_id b' = Body.service_request_id b ->
        Body.content b' = Body.content b ->
        status (post_message uid b now c ms).2 = 201 ->
        status (post_message uid' b' now c ms).2 = 201 ->
        post_message uid' b' now c ms = post_message uid b now c ms).
Proof.
  unfold post_message, findOne_opt.
  destruct (Body.service_request_id b) as [sid|] eqn:Hsid; simpl.
  - destruct (findOne sid (involved uid) c) as [r|] eqn:Hf; simpl.
    + apply findOne_Some in Hf as [Hr Hi]. apply involved_true in Hi. split_and!.
      * split; [|done]. intros _. by exists sid, r.
      * done.
      * intros _. eexists. split; [reflexivity|]. done.
      * intros uid' b' -> -> _. simpl.
        destruct (findOne sid (involved uid') c); simpl; [done | discriminate].
    + rewrite findOne_None in Hf. split_and!.
      * split; [discriminate|]. intros (sid' & r & [= <-] & Hr & Hi).
        apply involved_true in Hi. rewrite (Hf r Hr) in Hi. discriminate.
      * done.
      * discriminate.
      * intros uid' b' _ _ [=].
  - split_and!.
    + split; [discriminate|]. intros (sid' & r & [=] & _).
    + done.
    + discriminate.
    + intros uid' b' _ _ [=].
Qed.

(** X12: a message posted by a party of a request is not in the history
    that either party then reads: the history is looked up by the request
    identifier, which no stored message holds, so it is empty whatever
    has been posted. *)
Theorem posted_message_is_not_in_the_history (uid reader sid : string) (b : Body.t)
    (now : Z) (c : gmap string ServiceRequest.t) (ms : list Message.t)
    (r : ServiceRequest.t) :
  Body.service_request_id b = Some sid ->
  c !! sid = Some r ->
  ServiceRequest.user_id r = uid \/ ServiceRequest.nurse_id r = Some uid ->
  ServiceRequest.user_id r = reader \/ ServiceRequest.nurse_id r = Some reader ->
  exists m,
    post_message uid b now c ms = ((ms ++ [m])%list, mkResponse 201 (MessageData m))
    /\ Message.content m = Body.content b
    /\ get_messages sid reader c (ms ++ [m])%list = mkResponse 200 (MessageList [])
    /\ (forall ms', get_messages sid reader c ms' = mkResponse 200 (MessageList [])).
Proof.
  intros Hsid Hr Hu Hreader.
  apply involved_true in Hu, Hreader.
  assert (Hget : forall ms', get_messages sid reader c ms' = mkResponse 200 (MessageList [])).
  { intros ms'. unfold get_messages, findOne.
    rewrite Hr, Hreader, find_by_service_request_id. done. }
  unfold post_message, findOne_opt, findOne.
  rewrite Hsid. simpl. rewrite Hr, Hu.
  eexists. split; [reflexivity|]. split_and!; [done | apply Hget | exact Hget].
Qed.

(** A run of X12: the client writes, the nurse reads. *)
Lemma posted_message_is_not_in_the_history_run :
  let r0 := newRequest "u1" (Body.creation "n1" ["p1"] 50) in
  let c0 : gmap string ServiceRequest.t := {[ "r1" := r0 ]} in
  let b := Body.of_message "r1" "hola" in
  exists m,
    post_message "u1" b 7 c0 [] = ([m], mkResponse 201 (MessageData m))
    /\ Message.content m = Some "hola"
    /\ get_messages "r1" "n1" c0 [m] = mkResponse 200 (MessageList []).
Proof.
  intros r0 c0 b.
  destruct (posted_message_is_not_in_the_history "u1" "n1" "r1" b 7 c0 [] r0)
    as (m & Hpost & Hcontent & Hget & _).
  - reflexivity.
  - apply lookup_singleton_eq.
  - by left.
  - by right.
  - by exists m.
Defined.

(** ** Registration *)

Lemma truthy_true (o : option string) :
  truthy o = true <-> exists s, o = Some s /\ s <> "".
Proof.
  destruct o as [s|]; simpl.
  - rewrite negb_true_iff, String.eqb_neq. split.
    + intros Hne. by exists s.
    + intros (s' & [= <-] & Hne). done.
  - split; [discriminate | intros (s & [=] & _)].
Qed.

Lemma find_app_None {A : Type} (f : A -> bool) (l1 l2 : list A) :
  find f l1 = None -> find f (l1 ++ l2)%list = find f l2.
Proof.
  induction l1 as [|x l1 IH]; simpl; [done|].
  destruct (f x); [discriminate | exact IH].
Qed.

Lemma existsb_false {A : Type} (f : A -> bool) (l : list A) :
  existsb f l = false <-> forall x, x ∈ l -> f x = false.
Proof.
  induction l as [|y l IH]; simpl.
  - split; [intros _ x Hx; by apply elem_of_nil in Hx | done].
  - rewrite orb_false_iff, IH. split.
    + intros [Hy Hl] x [-> | Hx]%elem_of_cons; [done | by apply Hl].
    + intros Hall. split; [apply Hall, list_elem_of_here|].
      intros x Hx. apply Hall. by apply list_elem_of_further.
Qed.

Lemma users_register_cases hmac (oid : string) (b : RegisterBody.t) (now : Z)
    (us : list User.t) :
  (exists name user_name password,
     RegisterBody.name b = Some name /\ name <> ""
     /\ RegisterBody.user_name b = Some user_name /\ user_name <> ""
     /\ RegisterBody.password b = Some password /\ password <> ""
     /\ (forall u, u ∈ us -> User.user_name u <> user_name /\ User._id u <> oid)
     /\ users_register hmac oid b now us =
        ((us ++ [User.mk oid name user_name password (RegisterBody.foto b)
                         (default "No" (RegisterBody.verificado b))])%list,
         mkReply 201
           (Some (User.mk oid name user_name password (RegisterBody.foto b)
                          (default "No" (RegisterBody.verificado b)),
                  generateToken hmac (JStr oid) now))))
  \/ (users_register hmac oid b now us = (us, mkReply 400 None)
      /\ (truthy (RegisterBody.name b) = false
          \/ truthy (RegisterBody.user_name b) = false
          \/ truthy (RegisterBody.password b) = false
          \/ exists u, u ∈ us
                       /\ (Some (User.user_name u) = RegisterBody.user_name b
                           \/ User._id u = oid))).
Proof.
  unfold users_register.
  destruct (truthy (RegisterBody.name b)) eqn:Hn; simpl; [|right; split; [done | by left]].
  destruct (truthy (RegisterBody.user_name b)) eqn:Hu; simpl;
    [|right; split; [done | by right; left]].
  destruct (truthy (RegisterBody.password b)) eqn:Hp; simpl;
    [|right; split; [done | by right; right; left]].
  destruct (existsb _ us) eqn:Hex.
  - right. split; [done|]. do 3 right.
    apply existsb_exists in Hex as (u & Hin & Hc).
    exists u. split; [by apply list_elem_of_In|].
    apply orb_true_iff in Hc as [Hc | Hc]; apply bool_decide_eq_true in Hc; tauto.
  - left.
    apply truthy_true in Hn as (name & Hn & Hn').
    apply truthy_true in Hu as (user_name & Hu & Hu').
    apply truthy_true in Hp as (password & Hp & Hp').
    exists name, user_name, password. rewrite Hn, Hu, Hp. simpl.
    split_and!; try done.
    intros u Hin. rewrite existsb_false in Hex. specialize (Hex u Hin).
    apply orb_false_iff in Hex as [H1 H2]. apply bool_decide_eq_false in H1, H2.
    rewrite Hu in H1. split; [|done]. intros Heq. apply H1. by rewrite Heq.
Qed.

(** X14: a user registration succeeds exactly when name, user name and
    password are all non-empty and no stored user has that user name (or
    the new [_id]); a refused one answers 400 and stores nothing. It adds
    one user, with the password as submitted, and keeps user names
    pairwise distinct. *)
Theorem users_register_exact hmac (oid : string) (b : RegisterBody.t) (now : Z)
    (us : list User.t) :
  (code (users_register hmac oid b now us).2 = 201 <->
     truthy (RegisterBody.name b) = true /\ truthy (RegisterBody.user_name b) = true
     /\ truthy (RegisterBody.password b) = true
     /\ forall u, u ∈ us ->
          Some (User.user_name u) <> RegisterBody.user_name b /\ User._id u <> oid)
  /\ (code (users_register hmac oid b now us).2 <> 201 ->
      users_register hmac oid b now us = (us, mkReply 400 None))
  /\ (code (users_register hmac oid b now us).2 = 201 ->
      exists u,
        (users_register hmac oid b now us).1 = (us ++ [u])%list
        /\ User._id u = oid
        /\ Some (User.password u) = RegisterBody.password b
        /\ Some (User.user_name u) = RegisterBody.user_name b)
  /\ (NoDup (User.user_name <$> us) ->
      NoDup (User.user_name <$> (users_register hmac oid b now us).1)).
Proof.
  destruct (users_register_cases hmac oid b now us)
    as [(name & user_name & password & Hn & Hn' & Hu & Hu' & Hp & Hp' & Hfree & Heq)
       | [Heq Hwhy]];
    rewrite Heq; simpl.
  - split_and!.
    + split; [|done]. intros _. rewrite Hn, Hu, Hp. simpl.
      rewrite !negb_true_iff, !String.eqb_neq. split_and!; try done.
      intros u Hin. destruct (Hfree u Hin) as [H1 H2]. split; [|done]. congruence.
    + done.
    + intros _. eexists. split; [reflexivity|]. simpl. by rewrite Hp, Hu.
    + intros Hnd. rewrite fmap_app. simpl. apply NoDup_app. split_and!.
      * done.
      * intros x Hx [->|Hnil]%elem_of_cons; [|by apply elem_of_nil in Hnil].
        apply list_elem_of_fmap in Hx as (u & Hxu & Hin).
        destruct (Hfree u Hin) as [H1 _]. by apply H1.
      * apply NoDup_singleton.
  - split_and!.
    + split; [discriminate|]. intros (H1 & H2 & H3 & Hfree).
      destruct Hwhy as [Hw | [Hw | [Hw | (u & Hin & Hw)]]]; try congruence.
      destruct (Hfree u Hin) as [Hf1 Hf2]. tauto.
    + done.
    + discriminate.
    + done.
Qed.

(** X15: after a successful registration the same user name and password
    log in: the login answers 200 with a token for the new [_id] and the
    role [usuario]. The token of the registration itself, shown to the
    guard within the hour, attaches the new [_id] to the request, and a
    second registration under the same user name is refused. *)
Theorem users_register_then_login hmac (oid oid' : string) (b : RegisterBody.t)
    (now now' : Z) (us : list User.t) :
  code (users_register hmac oid b now us).2 = 201 ->
  exists u token,
    users_register hmac oid b now us =
      ((us ++ [u])%list, mkReply 201 (Some (u, token)))
    /\ users_login hmac (Body.credentials (User.user_name u) (User.password u)) now'
         (us ++ [u])%list =
       mkResponse 200
         (TokenRole (generateToken hmac (identity oid "usuario") now') "usuario")
    /\ (forall decode authorization text,
          header_token authorization = Some text -> text <> "" ->
          decode text = Some token -> now' < now + 3600 ->
          authenticateToken hmac decode authorization now' = Next (JStr oid))
    /\ users_register hmac oid' b now' (us ++ [u])%list
       = ((us ++ [u])%list, mkReply 400 None).
Proof.
  intros Hok.
  destruct (users_register_cases hmac oid b now us)
    as [(name & user_name & password & Hn & Hn' & Hu & Hu' & Hp & Hp' & Hfree & Heq)
       | [Heq _]];
    [|rewrite Heq in Hok; discriminate].
  eexists _, _. split; [exact Heq|]. split_and!.
  - unfold users_login, User_findOne. rewrite find_app_None.
    + simpl. rewrite !bool_decide_eq_true_2 by done. done.
    + destruct (find _ us) as [u'|] eqn:Hf; [|done]. exfalso.
      apply find_some in Hf as [Hin Hc]. apply list_elem_of_In in Hin.
      apply andb_true_iff in Hc as [Hc _]. apply bool_decide_eq_true in Hc.
      simpl in Hc. destruct (Hfree u' Hin) as [H1 _]. congruence.
  - intros decode authorization text Htok Hne Hdec Hlt.
    rewrite (authenticateToken_with_token _ _ _ _ _ Htok Hne).
    unfold jwt_verify_text. rewrite Hdec.
    assert (Hv : jwt_verify hmac (generateToken hmac (JStr oid) now) "tu_secreto_jwt" now'
                 = inr (payload (generateToken hmac (JStr oid) now))).
    { apply jwt_verify_ok. split_and!; [done..|].
      intros e [= <-]. unfold one_hour. lia. }
    rewrite Hv. done.
  - unfold users_register. rewrite Hn, Hu, Hp. simpl.
    rewrite (proj2 (negb_true_iff _) (proj2 (String.eqb_neq _ _) Hn')).
    rewrite (proj2 (negb_true_iff _) (proj2 (String.eqb_neq _ _) Hu')).
    rewrite (proj2 (negb_true_iff _) (proj2 (String.eqb_neq _ _) Hp')).
    simpl. rewrite existsb_app. simpl.
    rewrite (bool_decide_eq_true_2 (Some user_name = Some user_name)) by done.
    simpl. rewrite orb_true_r. done.
Qed.

(** A run of X15: the first user of an empty collection. *)
Lemma users_register_then_login_run :
  let b := RegisterBody.mk (Some "Ana") (Some "ana") (Some "Secreta1") None None in
  exists u token,
    users_register example_hmac "u1" b 0 [] = ([u], mkReply 201 (Some (u, token)))
    /\ users_login example_hmac (Body.credentials "ana" "Secreta1") 5 [u] =
       mkResponse 200
         (TokenRole (generateToken example_hmac (identity "u1" "usuario") 5) "usuario").
Proof.
  intros b.
  destruct (users_register_then_login example_hmac "u1" "u2" b 0 5 [])
    as (u & token & Hreg & Hlogin & _).
  - reflexivity.
  - exists u, token. split; [exact Hreg|].
    injection Hreg as <- _. exact Hlogin.
Defined.

Lemma nurses_register_cases hmac (oid : string) (b : NurseBody.t) (now : Z)
    (ns : list Nurse.t) :
  (exists user_name password,
     NurseBody.user_name b = Some user_name /\ user_name <> ""
     /\ NurseBody.password b = Some password /\ password <> ""
     /\ (forall n, n ∈ ns -> Nurse.user_name n <> user_name /\ Nurse._id n <> oid)
     /\ exists n,
          nurses_register hmac oid b now ns =
            ((ns ++ [n])%list, mkReply 201 (Some (n, generateToken hmac (JStr oid) now)))
          /\ Nurse._id n = oid /\ Nurse.user_name n = user_name
          /\ Nurse.password n = password
          /\ Nurse.name n = NurseBody.name b
          /\ Nurse.tarifa n = NurseBody.tarifa b
          /\ Nurse.especialidad n = NurseBody.especialidad b)
  \/ (nurses_register hmac oid b now ns = (ns, mkReply 400 None)
      /\ (truthy (NurseBody.user_name b) = false
          \/ truthy (NurseBody.password b) = false
          \/ exists n, n ∈ ns
                       /\ (Some (Nurse.user_name n) = NurseBody.user_name b
                           \/ Nurse._id n = oid))).
Proof.
  unfold nurses_register.
  destruct (truthy (NurseBody.user_name b)) eqn:Hu; simpl;
    [|right; split; [done | by left]].
  destruct (truthy (NurseBody.password b)) eqn:Hp; simpl;
    [|right; split; [done | by right; left]].
  destruct (existsb _ ns) eqn:Hex.
  - right. split; [done|]. do 2 right.
    apply existsb_exists in Hex as (n & Hin & Hc).
    exists n. split; [by apply list_elem_of_In|].
    apply orb_true_iff in Hc as [Hc | Hc]; apply bool_decide_eq_true in Hc; tauto.
  - left.
    apply truthy_true in Hu as (user_name & Hu & Hu').
    apply truthy_true in Hp as (password & Hp & Hp').
    exists user_name, password. rewrite Hu, Hp. simpl.
    split_and!; try done.
    + intros n Hin. rewrite existsb_false in Hex. specialize (Hex n Hin).
      apply orb_false_iff in Hex as [H1 H2]. apply bool_decide_eq_false in H1, H2.
      rewrite Hu in H1. split; [|done]. intros Heq. apply H1. by rewrite Heq.
    + eexists. split; [reflexivity|]. done.
Qed.

(** X16: a nurse registration succeeds exactly when user name and
    password are non-empty and no stored nurse has that user name (or the
    new [_id]), and answers 400 otherwise, storing nothing; after a
    success the same user name and password log in, with a token for the
    new [_id] and the role [enfermero]. *)
Theorem nurses_register_then_login hmac (oid : string) (b : NurseBody.t)
    (now now' : Z) (ns : list Nurse.t) :
  (code (nurses_register hmac oid b now ns).2 = 201 <->
     truthy (NurseBody.user_name b) = true /\ truthy (NurseBody.password b) = true
     /\ forall n, n ∈ ns ->
          Some (Nurse.user_name n) <> NurseBody.user_name b /\ Nurse._id n <> oid)
  /\ (code (nurses_register hmac oid b now ns).2 <> 201 ->
      nurses_register hmac oid b now ns = (ns, mkReply 400 None))
  /\ (code (nurses_register hmac oid b now ns).2 = 201 ->
      exists n,
        nurses_register hmac oid b now ns =
          ((ns ++ [n])%list, mkReply 201 (Some (n, generateToken hmac (JStr oid) now)))
        /\ Some (Nurse.user_name n) = NurseBody.user_name b
        /\ Some (Nurse.password n) = NurseBody.password b
        /\ nurses_login hmac (Body.credentials (Nurse.user_name n) (Nurse.password n)) now'
             (ns ++ [n])%list =
           mkResponse 200
             (TokenRole (generateToken hmac (identity oid "enfermero") now') "enfermero")).
Proof.
  destruct (nurses_register_cases hmac oid b now ns)
    as [(user_name & password & Hu & Hu' & Hp & Hp' & Hfree & n & Heq & Hid & Hun & Hpw & _)
       | [Heq Hwhy]];
    rewrite Heq; simpl.
  - split_and!.
    + split; [|done]. intros _. rewrite Hu, Hp. simpl.
      rewrite !negb_true_iff, !String.eqb_neq. split_and!; try done.
      intros n' Hin. destruct (Hfree n' Hin) as [H1 H2]. split; [|done]. congruence.
    + done.
    + intros _. exists n. split; [done|]. rewrite Hun, Hpw, Hu, Hp. split_and!; try done.
      unfold nurses_login, Nurse_findOne. rewrite find_app_None.
      * simpl. rewrite Hun, Hpw, !bool_decide_eq_true_2 by done. simpl. by rewrite Hid.
      * destruct (find _ ns) as [n'|] eqn:Hf; [|done]. exfalso.
        apply find_some in Hf as [Hin Hc]. apply list_elem_of_In in Hin.
        apply andb_true_iff in Hc as [Hc _]. apply bool_decide_eq_true in Hc.
        simpl in Hc. destruct (Hfree n' Hin) as [H1 _]. congruence.
  - split_and!.
    + split; [discriminate|]. intros (H1 & H2 & Hfree).
      destruct Hwhy as [Hw | [Hw | (n & Hin & Hw)]]; try congruence.
      destruct (Hfree n Hin) as [Hf1 Hf2]. tauto.
    + done.
    + discriminate.
Qed.

(** ** Patients *)

Lemma elem_of_patients_get (uid : string) (ps : gmap string Patient.t) (p : Patient.t) :
  (exists l, sent (patients_get uid ps) = Some l /\ p ∈ l) <->
  exists pid, ps !! pid = Some p /\ Patient.usuario_id p = uid.
Proof.
  unfold patients_get. simpl. split.
  - intros (l & [= <-] & Hin).
    apply list_elem_of_fmap in Hin as ([pid p'] & -> & Hin).
    apply list_elem_of_filter in Hin as [Hu Hin]. apply elem_of_map_to_list in Hin.
    by exists pid.
  - intros (pid & Hp & Hu). eexists. split; [reflexivity|].
    apply list_elem_of_fmap. exists (pid, p). split; [done|].
    apply list_elem_of_filter. split; [done|]. by apply elem_of_map_to_list.
Qed.

Lemma patients_post_cases (oid uid : string) (b : PatientBody.t)
    (ps : gmap string Patient.t) :
  (exists name fecha genero movilidad descripcion,
     PatientBody.name b = Some name /\ name <> ""
     /\ PatientBody.fecha_nacimiento b = Some fecha /\ fecha <> ""
     /\ PatientBody.genero b = Some genero /\ genero <> ""
     /\ PatientBody.movilidad b = Some movilidad /\ movilidad <> ""
     /\ PatientBody.descripcion b = Some descripcion /\ descripcion <> ""
     /\ uid <> "" /\ ps !! oid = None
     /\ patients_post oid uid b ps =
        (<[oid := Patient.mk name fecha genero movilidad descripcion uid]> ps,
         mkReply 201 (Some (oid, Patient.mk name fecha genero movilidad descripcion uid))))
  \/ (patients_post oid uid b ps = (ps, mkReply 400 None)
      /\ (truthy (PatientBody.name b) = false
          \/ truthy (PatientBody.fecha_nacimiento b) = false
          \/ truthy (PatientBody.genero b) = false
          \/ truthy (PatientBody.movilidad b) = false
          \/ truthy (PatientBody.descripcion b) = false
          \/ uid = "" \/ is_Some (ps !! oid))).
Proof.
  unfold patients_post.
  destruct (truthy (PatientBody.name b)) eqn:H1; simpl; [|right; split; [done|tauto]].
  destruct (truthy (PatientBody.fecha_nacimiento b)) eqn:H2; simpl;
    [|right; split; [done|tauto]].
  destruct (truthy (PatientBody.genero b)) eqn:H3; simpl; [|right; split; [done|tauto]].
  destruct (truthy (PatientBody.movilidad b)) eqn:H4; simpl; [|right; split; [done|tauto]].
  destruct (truthy (PatientBody.descripcion b)) eqn:H5; simpl;
    [|right; split; [done|tauto]].
  destruct (negb (uid =? "")%string) eqn:H6; simpl.
  - destruct (ps !! oid) as [p|] eqn:Hoid.
    + right. split; [done|]. do 6 right. by eexists.
    + left.
      apply truthy_true in H1 as (name & E1 & N1).
      apply truthy_true in H2 as (fecha & E2 & N2).
      apply truthy_true in H3 as (genero & E3 & N3).
      apply truthy_true in H4 as (movilidad & E4 & N4).
      apply truthy_true in H5 as (descripcion & E5 & N5).
      apply negb_true_iff, String.eqb_neq in H6.
      exists name, fecha, genero, movilidad, descripcion.
      rewrite E1, E2, E3, E4, E5. simpl. split_and!; done.
  - right. split; [done|]. do 5 right. left.
    apply negb_false_iff, String.eqb_eq in H6. done.
Qed.

(** X17: a patient is created exactly when the five descriptive fields
    are non-empty (mobility included) and the new [_id] is free; otherwise
    the answer is 400 and nothing is stored. The new patient belongs to
    the caller whatever owner the body names, and the other patients are
    left as they were. *)
Theorem patients_post_owned_by_caller (oid uid : string) (b : PatientBody.t)
    (ps : gmap string Patient.t) :
  (code (patients_post oid uid b ps).2 = 201 <->
     truthy (PatientBody.name b) = true
     /\ truthy (PatientBody.fecha_nacimiento b) = true
     /\ truthy (PatientBody.genero b) = true
     /\ truthy (PatientBody.movilidad b) = true
     /\ truthy (PatientBody.descripcion b) = true
     /\ uid <> "" /\ ps !! oid = None)
  /\ (code (patients_post oid uid b ps).2 <> 201 ->
      patients_post oid uid b ps = (ps, mkReply 400 None))
  /\ (code (patients_post oid uid b ps).2 = 201 ->
      exists p,
        patients_post oid uid b ps = (<[oid := p]> ps, mkReply 201 (Some (oid, p)))
        /\ Patient.usuario_id p = uid
        /\ Some (Patient.name p) = PatientBody.name b
        /\ Some (Patient.movilidad p) = PatientBody.movilidad b
        /\ (forall pid, pid <> oid ->
              (patients_post oid uid b ps).1 !! pid = ps !! pid)).
Proof.
  destruct (patients_post_cases oid uid b ps)
    as [(name & fecha & genero & movilidad & descripcion
         & E1 & N1 & E2 & N2 & E3 & N3 & E4 & N4 & E5 & N5 & Nu & Hoid & Heq)
       | [Heq Hwhy]];
    rewrite Heq; simpl.
  - split_and!.
    + split; [|done]. intros _. rewrite E1, E2, E3, E4, E5. simpl.
      rewrite !negb_true_iff, !String.eqb_neq. done.
    + done.
    + intros _. eexists. split; [reflexivity|]. simpl. rewrite E1, E4.
      split_and!; try done. intros pid Hne. by rewrite lookup_insert_ne.
  - split_and!.
    + split; [discriminate|]. intros (H1 & H2 & H3 & H4 & H5 & H6 & H7).
      destruct Hwhy as [H|[H|[H|[H|[H|[H|[p H]]]]]]]; congruence.
    + done.
    + discriminate.
Qed.

(** X18: a client who has created a patient finds it in her list and in
    nobody else's: every list holds only the caller's patients, and all of
    them, and the lists of the other clients are as they were. *)
Theorem created_patient_is_listed (oid uid other : string)
    (b : PatientBody.t) (ps : gmap string Patient.t) :
  code (patients_post oid uid b ps).2 = 201 ->
  other <> uid ->
  exists p ps',
    patients_post oid uid b ps = (ps', mkReply 201 (Some (oid, p)))
    /\ Patient.usuario_id p = uid
    /\ (exists l, sent (patients_get uid ps') = Some l /\ p ∈ l)
    /\ (forall l, sent (patients_get other ps') = Some l -> p ∉ l)
    /\ (forall q, (exists l, sent (patients_get other ps') = Some l /\ q ∈ l) <->
                  (exists l, sent (patients_get other ps) = Some l /\ q ∈ l)).
Proof.
  intros Hok Hother.
  destruct (patients_post_cases oid uid b ps)
    as [(name & fecha & genero & movilidad & descripcion
         & E1 & N1 & E2 & N2 & E3 & N3 & E4 & N4 & E5 & N5 & Nu & Hoid & Heq)
       | [Heq _]];
    [|rewrite Heq in Hok; discriminate].
  eexists _, _. split; [exact Heq|]. split_and!.
  - reflexivity.
  - apply elem_of_patients_get. exists oid. by rewrite lookup_insert_eq.
  - intros l Hl Hin.
    assert (Hex : exists l0, sent (patients_get other
                     (<[oid := Patient.mk name fecha genero movilidad descripcion uid]> ps))
                   = Some l0
                   /\ Patient.mk name fecha genero movilidad descripcion uid ∈ l0)
      by (by exists l).
    apply elem_of_patients_get in Hex as (pid & _ & Hu). simpl in Hu. congruence.
  - intros q. rewrite !elem_of_patients_get. split.
    + intros (pid & Hq & Hu). exists pid. split; [|done].
      destruct (decide (oid = pid)) as [<-|Hne].
      * rewrite lookup_insert_eq in Hq. injection Hq as <-. simpl in Hu. congruence.
      * by rewrite lookup_insert_ne in Hq.
    + intros (pid & Hq & Hu). exists pid. split; [|done].
      rewrite lookup_insert_ne; [done|]. intros <-. congruence.
Qed.

(** A run of X18: client c1 creates patient p1; the body names client c2
    as the owner, and the caller is stored. *)
Lemma created_patient_is_listed_run :
  let b := PatientBody.mk (Some "Luis") (Some "1948-03-02") (Some "M") (Some "alta")
                          (Some "diabetes") (Some "c2") in
  exists p ps',
    patients_post "p1" "c1" b ∅ = (ps', mkReply 201 (Some ("p1", p)))
    /\ Patient.usuario_id p = "c1"
    /\ (exists l, sent (patients_get "c1" ps') = Some l /\ p ∈ l)
    /\ (forall l, sent (patients_get "c2" ps') = Some l -> p ∉ l).
Proof.
  intros b.
  destruct (created_patient_is_listed "p1" "c1" "c2" b ∅)
    as (p & ps' & Hpost & Hu & Hmine & Hother & _).
  - reflexivity.
  - discriminate.
  - by exists p, ps'.
Defined.

(** ** The token in the header *)

Lemma split_at_separator (sep : ascii) (a b : string) :
  occurs sep a = false ->
  split sep (a +:+ String sep b) = a :: split sep b.
Proof.
  induction a as [|ch a IH]; intros Ha.
  - change ("" +:+ String sep b) with (String sep b). simpl.
    rewrite Ascii.eqb_refl. done.
  - change (String ch a +:+ String sep b) with (String ch (a +:+ String sep b)).
    simpl in *. apply orb_false_iff in Ha as [Hch Ha].
    rewrite Hch, (IH Ha). done.
Qed.

Lemma split_pieces (sep : ascii) (s : string) :
  Forall (fun w => occurs sep w = false) (split sep s).
Proof.
  induction s as [|ch s IH]; simpl.
  - by repeat constructor.
  - destruct (Ascii.eqb ch sep) eqn:Hch.
    + by constructor.
    + destruct (split sep s) as [|w ws].
      * repeat constructor. simpl. by rewrite Hch.
      * inversion IH as [|? ? Hw Hws]; subst. constructor; [|done].
        simpl. by rewrite Hch, Hw.
Qed.

(** X19: the token the guard verifies is the second blank-separated piece
    of the header, whatever the first piece is and whatever follows the
    second: the word [Bearer] is not looked at. A header of one piece
    yields no token, and the piece taken never holds a blank. *)
Theorem header_token_is_the_second_piece :
  (forall scheme text,
     occurs " "%char scheme = false -> occurs " "%char text = false ->
     header_token (Some (scheme +:+ " " +:+ text)) = Some text
     /\ (forall rest,
           header_token (Some (scheme +:+ " " +:+ text +:+ " " +:+ rest)) = Some text)
     /\ (forall hmac decode now,
           authenticateToken hmac decode (Some (scheme +:+ " " +:+ text)) now =
           authenticateToken hmac decode (Some ("Bearer " +:+ text)) now))
  /\ (forall scheme,
        occurs " "%char scheme = false ->
        header_token (Some scheme) = None
        /\ forall hmac decode now,
             authenticateToken hmac decode (Some scheme) now = SendStatus 401)
  /\ (forall header text,
        header_token (Some header) = Some text -> occurs " "%char text = false).
Proof.
  split_and!.
  - intros scheme text Hscheme Htext.
    assert (H1 : header_token (Some (scheme +:+ " " +:+ text)) = Some text).
    { unfold header_token. simpl.
      change (" " +:+ text) with (String " "%char text).
      rewrite (split_at_separator _ _ _ Hscheme), (split_absent _ _ Htext). done. }
    split_and!.
    + exact H1.
    + intros rest. unfold header_token. simpl.
      change (" " +:+ text +:+ " " +:+ rest) with (String " "%char (text +:+ String " "%char rest)).
      rewrite (split_at_separator _ _ _ Hscheme), (split_at_separator _ _ _ Htext). done.
    + intros hmac decode now. unfold authenticateToken.
      rewrite H1, (header_token_bearer _ Htext). done.
  - intros scheme Hscheme.
    assert (H1 : header_token (Some scheme) = None).
    { unfold header_token. simpl. rewrite (split_absent _ _ Hscheme). done. }
    split; [exact H1|]. intros hmac decode now. unfold authenticateToken.
    rewrite H1. done.
  - intros header text. unfold header_token. simpl. intros Hlook.
    pose proof (split_pieces " "%char header) as Hall.
    rewrite Forall_forall in Hall. apply Hall.
    by eapply list_elem_of_lookup_2.
Qed.

(** ** Completed is not final *)

(** X20: the nurse of a completed request can still accept or reject it:
    the call succeeds and the request leaves the completed state with its
    paid flag untouched; from then on her report and her complete calls on
    it are answered 403. *)
Theorem completed_request_can_be_reopened (id uid : string) (b notes : Body.t)
    (c : gmap string ServiceRequest.t) (r : ServiceRequest.t) :
  c !! id = Some r ->
  ServiceRequest.nurse_id r = Some uid ->
  ServiceRequest.estado r = "completado" ->
  valid_estado (Body.estado b) = true ->
  exists e,
    Body.estado b = Some e
    /\ put_id id uid b c =
       (<[id := ServiceRequest.set_estado e r]> c,
        mkResponse 200 (RequestDoc id (ServiceRequest.set_estado e r)))
    /\ ServiceRequest.pago_realizado (ServiceRequest.set_estado e r)
       = ServiceRequest.pago_realizado r
    /\ put_id_reporte id uid notes (put_id id uid b c).1
       = ((put_id id uid b c).1, mkResponse 403 Envelope)
    /\ put_id_completar id uid notes (put_id id uid b c).1
       = ((put_id id uid b c).1, mkResponse 403 Envelope).
Proof.
  intros Hr Hn He Hv.
  destruct (Body.estado b) as [e|] eqn:Hb; [|discriminate].
  exists e. split; [done|].
  pose proof (put_id_found id uid e b c r Hb Hv Hr Hn) as Hput.
  assert (Hne : e <> "completado" /\ e <> "pendiente").
  { apply valid_estado_Some in Hv as [[= ->] | [= ->]]; split; discriminate. }
  rewrite Hput. simpl. split_and!; try done.
  - apply put_id_reporte_refused. intros r'. rewrite lookup_insert_eq.
    intros [= <-] [_ He']. simpl in He'. by destruct Hne.
  - apply put_id_completar_refused. intros r'. rewrite lookup_insert_eq.
    intros [= <-] [_ He']. simpl in He'. by destruct Hne.
Qed.

(** A run of X20: a completed request is accepted again. *)
Lemma completed_request_can_be_reopened_run :
  let r0 := ServiceRequest.set_estado "completado"
              (newRequest "u1" (Body.creation "n1" ["p1"] 50)) in
  let c0 : gmap string ServiceRequest.t := {[ "r1" := r0 ]} in
  let reopened := (put_id "r1" "n1" (Body.of_estado "aceptada") c0).1 in
  ServiceRequest.estado <$> reopened !! "r1" = Some "aceptada"
  /\ put_id_reporte "r1" "n1" Body.empty reopened = (reopened, mkResponse 403 Envelope).
Proof.
  intros r0 c0 reopened.
  destruct (completed_request_can_be_reopened "r1" "n1" (Body.of_estado "aceptada")
              Body.empty c0 r0)
    as (e & He & Hput & _ & Hrep & _).
  - apply lookup_singleton_eq.
  - reflexivity.
  - reflexivity.
  - reflexivity.
  - split; [|exact Hrep].
    simpl in He. assert (Ee : e = "aceptada") by congruence. subst e.
    unfold reopened. rewrite Hput. simpl. rewrite lookup_insert_eq. reflexivity.
Defined.
